(** * Medical equipment maintenance system: a shallow embedding in Rocq

    The source is one Streamlit script, [medical_maintenance_system.py].
    The pandas data frame held in [st.session_state.df] is a list of
    [Device] rows; the handlers of the UI are functions in a small state
    monad over the session (data frame, backing file, messages, clock).

    Time: a pandas [Timestamp] is an integer count of nanoseconds, a
    [timedelta(days=k)] is [k] days of nanoseconds, and [Timedelta.days]
    is the floor of the duration in whole days. *)

From Stdlib Require Import ZArith List String Ascii Bool Lia.
Import ListNotations.
Open Scope string_scope.
Open Scope Z_scope.

Module Time.

(** Nanoseconds per day: pandas timestamps count nanoseconds. *)
Definition ns_per_day : Z := 86400 * 1000000000.

(** [timedelta(days=k)] *)
Definition timedelta_days (k : Z) : Z := k * ns_per_day.

(** [Timedelta.days]: whole days, rounded towards minus infinity (a
    duration of minus one second has [.days == -1]). *)
Definition td_days (delta : Z) : Z := delta / ns_per_day.

End Time.
Import Time.

(** ** The data model: one row of the data frame *)

(** A cell that pandas may hold as [NaN] / [NaT] is an [option]. *)
Record Device := mkDevice {
  asset_id : string;                        (* 'Asset ID' *)
  scientific_department : option string;    (* 'Scientific Department' *)
  scientific_equipment_name : option string;(* 'Scientific Equipment Name' *)
  manufacturer : option string;             (* 'Manufacturer' *)
  model : option string;                    (* 'Model' *)
  serial_no : option string;                (* 'Serial No' *)
  installation_date : option Z;             (* 'Installation Date' *)
  center_code : option string;              (* 'Center_Code' (derived) *)
  center_name : option string;              (* 'Center_Name' (derived) *)
  last_maintenance : option Z;              (* 'Last_Maintenance' *)
  next_maintenance : option Z;              (* 'Next_Maintenance' *)
  maintenance_interval_days : Z;            (* 'Maintenance_Interval_Days' *)
  device_status : string;                   (* 'Device_Status' *)
  priority : string;                        (* 'Priority' *)
  notes : option string                     (* 'Notes' *)
}.

(** The strings [calculate_maintenance_status] returns. *)
Definition lbl_undetermined : string := "غير محدد".
Definition lbl_overdue : string := "متأخر".
Definition lbl_urgent : string := "عاجل".
Definition lbl_upcoming : string := "قريب".
Definition lbl_good : string := "جيد".

Definition icon_undetermined : string := "⚪".
Definition icon_overdue : string := "🔴".
Definition icon_urgent : string := "🟠".
Definition icon_upcoming : string := "🟡".
Definition icon_good : string := "🟢".

Definition status_labels : list string :=
  [lbl_undetermined; lbl_overdue; lbl_urgent; lbl_upcoming; lbl_good].

(** [days_until = (row['Next_Maintenance'] - today).days] *)
Definition days_until (today next : Z) : Z := td_days (next - today).

(** The body of [calculate_maintenance_status] once [today] has been read
    from the clock. *)
Definition maintenance_status (today : Z) (row : Device) : string * string :=
  match next_maintenance row with
  | None => (lbl_undetermined, icon_undetermined)
  | Some next =>
      let d := days_until today next in
      if d <? 0 then (lbl_overdue, icon_overdue)
      else if d <=? 7 then (lbl_urgent, icon_urgent)
      else if d <=? 30 then (lbl_upcoming, icon_upcoming)
      else (lbl_good, icon_good)
  end.

(** ** The session and its effects *)

(** What [st.error] and [st.success] show to the user. *)
Inductive Msg :=
| Error (text : string)
| Success (text : string).

(** The session: [st.session_state.df], the backing Excel file (what the
    last successful [to_excel] wrote), the messages shown, and the clock
    that [pd.Timestamp.now()] reads. *)
Record App := mkApp {
  df : list Device;
  disk : list Device;
  messages : list Msg;
  clock : Z
}.

(** A state monad over the session. *)
Definition M (A : Type) : Type := App -> A * App.

Definition ret {A : Type} (a : A) : M A := fun s => (a, s).

Definition bind {A B : Type} (m : M A) (k : A -> M B) : M B :=
  fun s => let (a, s') := m s in k a s'.

Notation "x <- m ;; k" := (bind m (fun x => k))
  (at level 61, m at next level, right associativity).
Notation "m ;;; k" := (bind m (fun _ => k))
  (at level 61, right associativity).

(** [pd.Timestamp.now()] *)
Definition timestamp_now : M Z := fun s => (clock s, s).

(** Reading and replacing [st.session_state.df]. *)
Definition get_df : M (list Device) := fun s => (df s, s).
Definition set_df (d : list Device) : M unit :=
  fun s => (tt, mkApp d (disk s) (messages s) (clock s)).

Definition write_disk (d : list Device) : M unit :=
  fun s => (tt, mkApp (df s) d (messages s) (clock s)).

Definition show (m : Msg) : M unit :=
  fun s => (tt, mkApp (df s) (disk s) (messages s ++ [m]) (clock s)).

Definition st_error (text : string) : M unit := show (Error text).
Definition st_success (text : string) : M unit := show (Success text).

(** ** [calculate_maintenance_status] *)

(** [today = pd.Timestamp.now()], then the classification. *)
Definition calculate_maintenance_status (row : Device) : M (string * string) :=
  today <- timestamp_now ;;
  ret (maintenance_status today row).

(** ** [save_data] *)

(** [df.drop(columns=['Center_Code', 'Center_Name'])]: the derived columns
    are not written. *)
Definition drop_temp_cols (r : Device) : Device :=
  mkDevice (asset_id r) (scientific_department r) (scientific_equipment_name r)
    (manufacturer r) (model r) (serial_no r) (installation_date r)
    None None
    (last_maintenance r) (next_maintenance r) (maintenance_interval_days r)
    (device_status r) (priority r) (notes r).

Definition save_error_text : string := "خطأ في حفظ البيانات".

(** [io_ok] is the outcome of [df_to_save.to_excel(file_path)]: [false]
    when it raises (I/O error, permission, locked file). *)
Definition save_data (io_ok : bool) (d : list Device) : M bool :=
  let df_to_save := map drop_temp_cols d in
  if io_ok then write_disk df_to_save ;;; ret true
  else st_error save_error_text ;;; ret false.

(** ** Row access by label *)

(** [df[df['Asset ID'] == asset_id].index[0]]: the first matching row. *)
Fixpoint find_index (p : Device -> bool) (l : list Device) : option nat :=
  match l with
  | [] => None
  | r :: t => if p r then Some O
              else match find_index p t with
                   | Some i => Some (S i)
                   | None => None
                   end
  end.

(** [df.loc[idx, col] = v] on an existing row: only row [idx] changes. *)
Fixpoint loc_update (i : nat) (f : Device -> Device) (l : list Device)
  : list Device :=
  match l, i with
  | [], _ => []
  | r :: t, O => f r :: t
  | r :: t, S j => r :: loc_update j f t
  end.

(** One column assignment on a row. *)
Definition set_last_maintenance (v : option Z) (r : Device) : Device :=
  mkDevice (asset_id r) (scientific_department r) (scientific_equipment_name r)
    (manufacturer r) (model r) (serial_no r) (installation_date r)
    (center_code r) (center_name r)
    v (next_maintenance r) (maintenance_interval_days r)
    (device_status r) (priority r) (notes r).

Definition set_next_maintenance (v : option Z) (r : Device) : Device :=
  mkDevice (asset_id r) (scientific_department r) (scientific_equipment_name r)
    (manufacturer r) (model r) (serial_no r) (installation_date r)
    (center_code r) (center_name r)
    (last_maintenance r) v (maintenance_interval_days r)
    (device_status r) (priority r) (notes r).

Definition set_device_status (v : string) (r : Device) : Device :=
  mkDevice (asset_id r) (scientific_department r) (scientific_equipment_name r)
    (manufacturer r) (model r) (serial_no r) (installation_date r)
    (center_code r) (center_name r)
    (last_maintenance r) (next_maintenance r) (maintenance_interval_days r)
    v (priority r) (notes r).

Definition set_maintenance_interval_days (v : Z) (r : Device) : Device :=
  mkDevice (asset_id r) (scientific_department r) (scientific_equipment_name r)
    (manufacturer r) (model r) (serial_no r) (installation_date r)
    (center_code r) (center_name r)
    (last_maintenance r) (next_maintenance r) v
    (device_status r) (priority r) (notes r).

Definition set_notes (v : option string) (r : Device) : Device :=
  mkDevice (asset_id r) (scientific_department r) (scientific_equipment_name r)
    (manufacturer r) (model r) (serial_no r) (installation_date r)
    (center_code r) (center_name r)
    (last_maintenance r) (next_maintenance r) (maintenance_interval_days r)
    (device_status r) (priority r) v.

(** ** Logging a completed maintenance ([show_maintenance_schedule], tab 2) *)

Definition newline : string := String (ascii_of_nat 10) EmptyString.

(** The values of the form [maintenance_log_form]. The number input
    [next_maintenance_interval] is bounded to [7 .. 365] by the widget. *)
Record MaintenanceForm := mkMaintenanceForm {
  maintenance_date : Z;            (* pd.Timestamp(maintenance_date) *)
  maintenance_type : string;
  technician : string;
  maintenance_notes : string;
  parts_replaced : string;
  device_status_after : string;
  next_maintenance_interval : Z
}.

Definition log_failed_text : string := "❌ فشل حفظ البيانات".
Definition log_ok_text : string := "✅ تم تسجيل الصيانة بنجاح!".

Section LogMaintenance.

(** [str(maintenance_date)], the text of a [datetime.date]. *)
Variable show_date : Z -> string.

(** [new_note = f"\n[{maintenance_date}] {maintenance_type} - {technician}: {maintenance_notes}"] *)
Definition new_note (f : MaintenanceForm) : string :=
  newline ++ "[" ++ show_date (maintenance_date f) ++ "] "
  ++ maintenance_type f ++ " - " ++ technician f ++ ": "
  ++ maintenance_notes f.

(** The five assignments of the submit branch, on row [idx], with [device]
    the row as it was read before the form. *)
Definition log_updates (f : MaintenanceForm) (device : Device) (idx : nat)
    (d : list Device) : list Device :=
  let d1 := loc_update idx (set_last_maintenance (Some (maintenance_date f))) d in
  let d2 := loc_update idx
              (set_next_maintenance
                 (Some (maintenance_date f
                        + timedelta_days (next_maintenance_interval f)))) d1 in
  let d3 := loc_update idx (set_device_status (device_status_after f)) d2 in
  let d4 := loc_update idx
              (set_maintenance_interval_days (next_maintenance_interval f)) d3 in
  let current_notes := match notes device with Some n => n | None => "" end in
  loc_update idx (set_notes (Some (current_notes ++ new_note f))) d4.

(** The submit branch of the form. [None] is the [IndexError] raised when no
    row has the selected asset id (the select box only offers existing ids). *)
Definition log_maintenance (io_ok : bool) (aid : string) (f : MaintenanceForm)
  : M (option bool) :=
  d <- get_df ;;
  match find_index (fun r => String.eqb (asset_id r) aid) d with
  | None => ret None
  | Some idx =>
      match nth_error d idx with
      | None => ret None
      | Some device =>
          let d' := log_updates f device idx d in
          set_df d' ;;;
          ok <- save_data io_ok d' ;;
          (if ok then st_success log_ok_text else st_error log_failed_text) ;;;
          ret (Some ok)
      end
  end.

End LogMaintenance.

(** ** Default interval per equipment type ([show_settings], tab 1) *)

Definition option_string_eqb (a b : option string) : bool :=
  match a, b with
  | Some x, Some y => String.eqb x y
  | None, None => true
  | _, _ => false
  end.

Definition interval_ok_text : string := "✅ تم تحديث فترة الصيانة".

(** [mask = df['Scientific Equipment Name'] == selected_equipment]
    ([NaN] never equals the selected name). *)
Definition equipment_mask (selected : string) (r : Device) : bool :=
  match scientific_equipment_name r with
  | Some n => String.eqb n selected
  | None => false
  end.

(** [df.loc[mask, 'Maintenance_Interval_Days'] = new_interval], then for each
    masked row with a [Last_Maintenance], [Next_Maintenance = last +
    timedelta(days=new_interval)]. *)
Definition apply_interval (selected : string) (new_interval : Z)
    (d : list Device) : list Device :=
  let d1 := map (fun r => if equipment_mask selected r
                          then set_maintenance_interval_days new_interval r
                          else r) d in
  map (fun r => if equipment_mask selected r
                then match last_maintenance r with
                     | Some last =>
                         set_next_maintenance
                           (Some (last + timedelta_days new_interval)) r
                     | None => r
                     end
                else r) d1.

Definition apply_interval_to_type (io_ok : bool) (selected : string)
    (new_interval : Z) : M bool :=
  d <- get_df ;;
  let d' := apply_interval selected new_interval d in
  set_df d' ;;;
  ok <- save_data io_ok d' ;;
  (if ok then st_success interval_ok_text else ret tt) ;;;
  ret ok.

(** ** Restore from backup ([show_settings], tab 3) *)

Definition restore_ok_text : string := "✅ تم استعادة البيانات بنجاح!".
Definition restore_error_text : string := "❌ خطأ في استعادة البيانات".

(** [parsed] is the outcome of [pd.read_excel(uploaded_backup)]: [None] when
    it raises. The assignment to [st.session_state.df] follows the read
    inside the [try]. *)
Definition restore_backup (parsed : option (list Device)) : M unit :=
  match parsed with
  | Some restored_df => set_df restored_df ;;; st_success restore_ok_text
  | None => st_error restore_error_text
  end.

(** ** Dashboard ([show_dashboard]) over the filtered frame *)

(** The urgent metric: [days <= 7], [Next_Maintenance >= now], not [NaT]. *)
Definition urgent_metric_row (today : Z) (r : Device) : bool :=
  match next_maintenance r with
  | Some n => (days_until today n <=? 7) && (today <=? n)
  | None => false
  end.

Definition urgent_count (today : Z) (d : list Device) : nat :=
  List.length (filter (urgent_metric_row today) d).

(** The table "devices needing immediate maintenance": [days <= 7], not
    [NaT] (before [sort_values('Next_Maintenance')] and [head(10)]). *)
Definition urgent_table_row (today : Z) (r : Device) : bool :=
  match next_maintenance r with
  | Some n => days_until today n <=? 7
  | None => false
  end.

Definition urgent_devices (today : Z) (d : list Device) : list Device :=
  filter (urgent_table_row today) d.

(** ** The centers table ([CENTERS], [CENTERS_DICT], [CENTERS_DICT_REV]) *)

Definition CENTERS : list (string * string) := [
  ("الخلاوية", "KHL-PHC"); ("جبل القهر", "GQH-PHC"); ("مقزع", "MQZ-PHC");
  ("القوام", "QWM-PHC"); ("الجبل الأسود", "BLM-PHC"); ("السادة", "SAD-PHC");
  ("بيش الشمالي", "NBS-PHC"); ("قرية بيش", "VBS-PHC"); ("المحلة", "MHL-PHC");
  ("العشة", "ASH-PHC"); ("أبو السداد", "ASD-PHC"); ("العالية", "ALA-PHC");
  ("السلامة", "SAL-PHC"); ("مسلية", "MSL-PHC"); ("عتود", "ATD-PHC");
  ("الفطيحة", "FTH-PHC"); ("منشبة", "MNS-PHC"); ("قايم الدش", "QDS-PHC");
  ("المطعن", "MTN-PHC"); ("الحقو", "HAQ-PHC"); ("الريث", "RYT-PHC");
  ("الشقيق", "SHQ-PHC"); ("الدرب", "DRB-PHC"); ("بيش الجنوبي", "SBS-PHC");
  ("عمود", "AMD-PHC")
].

(** A dict comprehension over a list of pairs: a later key overrides an
    earlier one, so the lookup scans the pairs from the end. *)
Fixpoint dict_lookup (pairs : list (string * string)) (k : string)
  : option string :=
  match pairs with
  | [] => None
  | (k', v) :: t =>
      match dict_lookup t k with
      | Some w => Some w
      | None => if String.eqb k' k then Some v else None
      end
  end.

(** [CENTERS_DICT = {code: name for name, code in CENTERS}] *)
Definition CENTERS_DICT (code : string) : option string :=
  dict_lookup (map (fun p => (snd p, fst p)) CENTERS) code.

(** [CENTERS_DICT_REV = {name: code for name, code in CENTERS}] *)
Definition CENTERS_DICT_REV (name : string) : option string :=
  dict_lookup CENTERS name.

(** ** Strings as Python splits and parses them *)

(** [s.split('-')] *)
Fixpoint split_on (sep : ascii) (s : string) : list string :=
  match s with
  | EmptyString => [EmptyString]
  | String c t =>
      match split_on sep t with
      | [] => [String c EmptyString]
      | w :: ws => if Ascii.eqb c sep then EmptyString :: w :: ws
                   else String c w :: ws
      end
  end.

Definition dash : ascii := "-"%char.

(** [load_data]: [df['Asset ID'].str.split('-').str[0:2].str.join('-')] *)
Definition derive_center_code (aid : string) : string :=
  String.concat "-" (firstn 2 (split_on dash aid)).

(** [x.split('-')[-1]] (a split is never empty) *)
Definition last_piece (aid : string) : string :=
  last (split_on dash aid) EmptyString.

Definition is_digit (c : ascii) : bool :=
  let n := nat_of_ascii c in (48 <=? n)%nat && (n <=? 57)%nat.

Definition is_space (c : ascii) : bool :=
  let n := nat_of_ascii c in ((9 <=? n)%nat && (n <=? 13)%nat) || (n =? 32)%nat.

Fixpoint drop_spaces (l : list ascii) : list ascii :=
  match l with
  | c :: t => if is_space c then drop_spaces t else l
  | [] => []
  end.

Definition strip (l : list ascii) : list ascii :=
  rev (drop_spaces (rev (drop_spaces l))).

(** Decimal digits with single underscores between them, as [int] reads
    them; [prev_digit] says the last character read was a digit. *)
Fixpoint read_digits (l : list ascii) (acc : Z) (prev_digit : bool) : option Z :=
  match l with
  | [] => if prev_digit then Some acc else None
  | c :: t =>
      if is_digit c
      then read_digits t (acc * 10 + Z.of_nat (nat_of_ascii c - 48)) true
      else if Ascii.eqb c "_"%char && prev_digit then read_digits t acc false
      else None
  end.

(** [int(s)] on a string: surrounding whitespace, an optional sign, ASCII
    decimal digits with [_] separators; [None] where [int] raises
    [ValueError]. Non-ASCII digits and whitespace, which [int] also
    accepts, are outside this model. *)
Definition python_int (s : string) : option Z :=
  match strip (list_ascii_of_string s) with
  | "+"%char :: t => read_digits t 0 false
  | "-"%char :: t => option_map Z.opp (read_digits t 0 false)
  | l => read_digits l 0 false
  end.

Definition digit_char (d : Z) : ascii := ascii_of_nat (48 + Z.to_nat d).

Fixpoint digits_rev (fuel : nat) (n : Z) : list ascii :=
  match fuel with
  | O => []
  | S f => digit_char (n mod 10)
           :: (if n <? 10 then [] else digits_rev f (n / 10))
  end.

(** [str(n)] for [n >= 0] *)
Definition decimal (n : Z) : string :=
  string_of_list_ascii (rev (digits_rev (S (S (Z.to_nat (Z.log2 n)))) n)).

(** [f"{n:03d}"] for [n >= 0]: at least three digits, zero-padded. *)
Definition format_03d (n : Z) : string :=
  let s := decimal n in
  string_of_list_ascii (repeat "0"%char (3 - String.length s))
  ++ s.

(** ** Asset id allocation ([show_devices_management], tab 2) *)

(** [existing_ids = df[df['Center_Code'] == center_code]['Asset ID']] *)
Definition existing_ids (d : list Device) (code : string) : list string :=
  map asset_id (filter (fun r => option_string_eqb (center_code r) (Some code)) d).

(** The loop: [num = int(asset_id.split('-')[-1])]; a failing parse is
    skipped by [except: pass]. *)
Definition max_suffix (ids : list string) : Z :=
  fold_left (fun max_num aid =>
               match python_int (last_piece aid) with
               | Some num => Z.max max_num num
               | None => max_num
               end) ids 0.

(** [new_asset_id = f"{center_code}-{max_num+1:03d}"] *)
Definition new_asset_id (d : list Device) (code : string) : string :=
  code ++ "-" ++ format_03d (max_suffix (existing_ids d code) + 1).

(** From the chosen center's name: [CENTERS_DICT_REV[center]] ([None] is the
    [KeyError] of an unknown name). *)
Definition allocate_asset_id (d : list Device) (center : string) : option string :=
  match CENTERS_DICT_REV center with
  | Some code => Some (new_asset_id d code)
  | None => None
  end.

(** ** Comparison definitions *)

(** The allocation scan as the specification words it: the records whose
    asset id starts with the center's code. Kept apart from [existing_ids],
    which filters on the stored [Center_Code] column. *)
Definition existing_ids_by_prefix (d : list Device) (code : string) : list string :=
  filter (String.prefix code) (map asset_id d).

Definition new_asset_id_by_prefix (d : list Device) (code : string) : string :=
  code ++ "-" ++ format_03d (max_suffix (existing_ids_by_prefix d code) + 1).

(** Shape of a center code in [CENTERS]: three capital letters, then
    ["-PHC"]. *)
Definition is_upper (c : ascii) : bool :=
  let n := nat_of_ascii c in (65 <=? n)%nat && (n <=? 90)%nat.

Definition center_code_shape (code : string) : bool :=
  match list_ascii_of_string code with
  | [a; b; c; h; p; q; r] =>
      is_upper a && is_upper b && is_upper c
      && Ascii.eqb h "-"%char && Ascii.eqb p "P"%char
      && Ascii.eqb q "H"%char && Ascii.eqb r "C"%char
  | _ => false
  end.

Fixpoint nodupb (l : list string) : bool :=
  match l with
  | [] => true
  | x :: t => negb (existsb (String.eqb x) t) && nodupb t
  end.

(** A row as [load_data] builds it from a spreadsheet line that has only an
    asset id, an equipment name and a next maintenance date. *)
Definition loaded_row (aid : string) (equipment : option string)
    (next : option Z) : Device :=
  mkDevice aid None equipment None None None None
    (Some (derive_center_code aid)) (CENTERS_DICT (derive_center_code aid))
    None next 90 "عامل" "متوسط" (Some "").

(** A small session for concrete runs: two rows of one center, the clock
    at the epoch, nothing written yet. *)
Definition ex_row1 : Device :=
  loaded_row "KHL-PHC-001" (Some "ECG") (Some (timedelta_days 3)).
Definition ex_row2 : Device :=
  loaded_row "KHL-PHC-002" (Some "Monitor") None.
Definition ex_session : App := mkApp [ex_row1; ex_row2] [] [] 0.

(** A maintenance log form: preventive maintenance on day 10 with a 30 day
    interval. *)
Definition ex_form (interval : Z) : MaintenanceForm :=
  mkMaintenanceForm (timedelta_days 10) "صيانة دورية" "Ali" "ok" ""
    "عامل" interval.

Definition ex_show_date (_ : Z) : string := "1970-01-11".

(** The row the five assignments of the log form produce. *)
Definition logged_row (show_date : Z -> string) (f : MaintenanceForm)
    (device : Device) (r : Device) : Device :=
  let current_notes := match notes device with Some n => n | None => "" end in
  set_notes (Some (current_notes ++ new_note show_date f))
    (set_maintenance_interval_days (next_maintenance_interval f)
       (set_device_status (device_status_after f)
          (set_next_maintenance
             (Some (maintenance_date f + timedelta_days (next_maintenance_interval f)))
             (set_last_maintenance (Some (maintenance_date f)) r)))).

(** A device due one day before the epoch. *)
Definition ex_overdue_row : Device :=
  loaded_row "KHL-PHC-003" (Some "ECG") (Some (timedelta_days (-1))).

(** One step of the allocation loop. *)
Definition max_step (max_num : Z) (aid : string) : Z :=
  match python_int (last_piece aid) with
  | Some num => Z.max max_num num
  | None => max_num
  end.

(** The rows a center holds in the statement's example: its codes with
    suffixes 001, 002 and 005. *)
Definition ex_center_rows (code : string) : list Device :=
  [loaded_row (code ++ "-001") (Some "ECG") None;
   loaded_row (code ++ "-002") (Some "ECG") None;
   loaded_row (code ++ "-005") (Some "ECG") None].

(** ** Loading the spreadsheet ([load_data]) *)

(** One line of the spreadsheet as [pd.read_excel] yields it; a date cell
    is what [pd.to_datetime(..., errors='coerce')] gives ([None] for [NaT]). *)
Record SheetRow := mkSheetRow {
  c_asset_id : string;
  c_department : option string;
  c_equipment : option string;
  c_manufacturer : option string;
  c_model : option string;
  c_serial : option string;
  c_installation : option Z;
  c_last : option Z;
  c_next : option Z;
  c_interval : Z;
  c_status : string;
  c_priority : string;
  c_notes : option string
}.

(** The sheet: which optional columns it has, and its lines. The cell of a
    column the sheet does not have is never read. *)
Record Sheet := mkSheet {
  has_last : bool;        (* 'Last_Maintenance' in df.columns *)
  has_next : bool;        (* 'Next_Maintenance' *)
  has_interval : bool;    (* 'Maintenance_Interval_Days' *)
  has_status : bool;      (* 'Device_Status' *)
  has_priority : bool;    (* 'Priority' *)
  has_notes : bool;       (* 'Notes' *)
  sheet_rows : list SheetRow
}.

Definition default_interval : Z := 90.
Definition default_status : string := "عامل".
Definition default_priority : string := "متوسط".
Definition load_error_text : string := "خطأ في تحميل البيانات".

(** The row [load_data] builds: the derived [Center_Code] and
    [Center_Name = Center_Code.map(CENTERS_DICT)], and a default for each
    optional column the sheet lacks. *)
Definition load_row (sh : Sheet) (c : SheetRow) : Device :=
  let code := derive_center_code (c_asset_id c) in
  mkDevice (c_asset_id c) (c_department c) (c_equipment c) (c_manufacturer c)
    (c_model c) (c_serial c) (c_installation c)
    (Some code) (CENTERS_DICT code)
    (if has_last sh then c_last c else None)
    (if has_next sh then c_next c else None)
    (if has_interval sh then c_interval c else default_interval)
    (if has_status sh then c_status c else default_status)
    (if has_priority sh then c_priority c else default_priority)
    (if has_notes sh then c_notes c else Some "").

(** [read] is the outcome of [pd.read_excel(file_path)]: [None] when it
    raises; then the error is shown and [None] returned. *)
Definition load_data (read : option Sheet) : M (option (list Device)) :=
  match read with
  | Some sh => ret (Some (map (load_row sh) (sheet_rows sh)))
  | None => st_error load_error_text ;;; ret None
  end.

(** ** Adding a device ([show_devices_management], tab 2) *)

(** The values of [add_device_form]. The select boxes for the center and
    the department give [None] when they have no option. *)
Record AddForm := mkAddForm {
  a_center : option string;
  a_equipment_name : string;
  a_manufacturer : string;
  a_model : string;
  a_department : option string;
  a_serial_no : string;
  a_installation_date : Z;       (* pd.Timestamp(installation_date) *)
  a_device_status : string;
  a_interval : Z;                (* number_input, 7 .. 365 *)
  a_priority : string;
  a_notes : string
}.

(** Truth of a Python string. *)
Definition truthy (s : string) : bool := negb (String.eqb s "").

Definition truthy_opt (s : option string) : bool :=
  match s with Some x => truthy x | None => false end.

Definition add_ok_text (aid : string) : string :=
  "✅ تم إضافة الجهاز بنجاح! Asset ID: " ++ aid.
Definition add_failed_text : string := "❌ فشل حفظ البيانات".
Definition add_required_text : string := "⚠️ يرجى ملء جميع الحقول المطلوبة (*)".

(** [new_row] of the form, for a center [center] with code [code]. *)
Definition new_device_row (d : list Device) (f : AddForm) (center code : string)
  : Device :=
  mkDevice (new_asset_id d code) (a_department f) (Some (a_equipment_name f))
    (Some (a_manufacturer f)) (Some (a_model f)) (Some (a_serial_no f))
    (Some (a_installation_date f))
    (Some code) (Some center)
    None (Some (a_installation_date f + timedelta_days (a_interval f)))
    (a_interval f) (a_device_status f) (a_priority f) (Some (a_notes f)).

(** How a submission ends. *)
Inductive AddOutcome :=
| AddRejected                 (* a required field is empty *)
| AddKeyError                 (* CENTERS_DICT_REV[center] raises *)
| AddSaved (saved : bool).    (* the row was appended; save_data's result *)

(** The submit branch: [if equipment_name and center and department]. *)
Definition add_device (io_ok : bool) (f : AddForm) : M AddOutcome :=
  match a_center f with
  | Some center =>
      if truthy (a_equipment_name f) && truthy center && truthy_opt (a_department f)
      then
        match CENTERS_DICT_REV center with
        | None => ret AddKeyError
        | Some code =>
            d <- get_df ;;
            let row := new_device_row d f center code in
            set_df (d ++ [row]) ;;;
            ok <- save_data io_ok (d ++ [row]) ;;
            (if ok then st_success (add_ok_text (asset_id row))
             else st_error add_failed_text) ;;;
            ret (AddSaved ok)
        end
      else st_error add_required_text ;;; ret AddRejected
  | None => st_error add_required_text ;;; ret AddRejected
  end.

(** ** Editing and deleting a device ([show_devices_management], tab 3) *)

Definition set_scientific_equipment_name (v : option string) (r : Device) : Device :=
  mkDevice (asset_id r) (scientific_department r) v
    (manufacturer r) (model r) (serial_no r) (installation_date r)
    (center_code r) (center_name r)
    (last_maintenance r) (next_maintenance r) (maintenance_interval_days r)
    (device_status r) (priority r) (notes r).

Definition set_manufacturer (v : option string) (r : Device) : Device :=
  mkDevice (asset_id r) (scientific_department r) (scientific_equipment_name r)
    v (model r) (serial_no r) (installation_date r)
    (center_code r) (center_name r)
    (last_maintenance r) (next_maintenance r) (maintenance_interval_days r)
    (device_status r) (priority r) (notes r).

Definition set_model (v : option string) (r : Device) : Device :=
  mkDevice (asset_id r) (scientific_department r) (scientific_equipment_name r)
    (manufacturer r) v (serial_no r) (installation_date r)
    (center_code r) (center_name r)
    (last_maintenance r) (next_maintenance r) (maintenance_interval_days r)
    (device_status r) (priority r) (notes r).

Definition set_priority (v : string) (r : Device) : Device :=
  mkDevice (asset_id r) (scientific_department r) (scientific_equipment_name r)
    (manufacturer r) (model r) (serial_no r) (installation_date r)
    (center_code r) (center_name r)
    (last_maintenance r) (next_maintenance r) (maintenance_interval_days r)
    (device_status r) v (notes r).

(** The values of [edit_device_form]. *)
Record EditForm := mkEditForm {
  e_equipment_name : string;
  e_manufacturer : string;
  e_model : string;
  e_device_status : string;
  e_priority : string;
  e_interval : Z;
  e_notes : string
}.

Definition edit_ok_text : string := "✅ تم حفظ التعديلات بنجاح!".
Definition edit_failed_text : string := "❌ فشل حفظ التعديلات".
Definition delete_ok_text : string := "✅ تم حذف الجهاز بنجاح!".
Definition delete_failed_text : string := "❌ فشل حذف الجهاز".

(** The seven assignments of [update_btn], in the order of the source. *)
Definition edit_updates (f : EditForm) (idx : nat) (d : list Device) : list Device :=
  let d1 := loc_update idx (set_scientific_equipment_name (Some (e_equipment_name f))) d in
  let d2 := loc_update idx (set_manufacturer (Some (e_manufacturer f))) d1 in
  let d3 := loc_update idx (set_model (Some (e_model f))) d2 in
  let d4 := loc_update idx (set_device_status (e_device_status f)) d3 in
  let d5 := loc_update idx (set_priority (e_priority f)) d4 in
  let d6 := loc_update idx (set_maintenance_interval_days (e_interval f)) d5 in
  loc_update idx (set_notes (Some (e_notes f))) d6.

(** [update_btn]: [None] is the [IndexError] of an absent id. *)
Definition edit_device (io_ok : bool) (aid : string) (f : EditForm)
  : M (option bool) :=
  d <- get_df ;;
  match find_index (fun r => String.eqb (asset_id r) aid) d with
  | None => ret None
  | Some idx =>
      let d' := edit_updates f idx d in
      set_df d' ;;;
      ok <- save_data io_ok d' ;;
      (if ok then st_success edit_ok_text else st_error edit_failed_text) ;;;
      ret (Some ok)
  end.

(** [delete_btn] with the confirmation box ticked:
    [df = df[df['Asset ID'] != asset_id]]. *)
Definition delete_device (io_ok : bool) (aid : string) : M bool :=
  d <- get_df ;;
  let d' := filter (fun r => negb (String.eqb (asset_id r) aid)) d in
  set_df d' ;;;
  ok <- save_data io_ok d' ;;
  (if ok then st_success delete_ok_text else st_error delete_failed_text) ;;;
  ret ok.

(** ** Time filters of the dashboard and of the maintenance schedule *)

(** [(Next_Maintenance < now) & Next_Maintenance.notna()]: the overdue
    metric of the dashboard, of the statistics tab and of the reports. *)
Definition overdue_row (today : Z) (r : Device) : bool :=
  match next_maintenance r with
  | Some n => n <? today
  | None => false
  end.

Definition overdue_count (today : Z) (d : list Device) : nat :=
  List.length (filter (overdue_row today) d).

(** The choices of the schedule's [time_range] select box. *)
Inductive TimeRange := Overdue | WithinWeek | WithinMonth | Within3Months | AllTimes.

(** [Next_Maintenance >= today & Next_Maintenance <= today + timedelta(days=k)] *)
Definition within_days (today : Z) (k : Z) (n : Z) : bool :=
  (today <=? n) && (n <=? today + timedelta_days k).

(** The time filter of the schedule tab on [df[df['Next_Maintenance'].notna()]]. *)
Definition schedule_time_row (today : Z) (tr : TimeRange) (r : Device) : bool :=
  match next_maintenance r with
  | None => false
  | Some n =>
      match tr with
      | Overdue => n <? today
      | WithinWeek => within_days today 7 n
      | WithinMonth => within_days today 30 n
      | Within3Months => within_days today 90 n
      | AllTimes => true
      end
  end.

(** The statistics tab's "upcoming (30 days)" metric. *)
Definition upcoming30_count (today : Z) (d : list Device) : nat :=
  List.length (filter (schedule_time_row today WithinMonth) d).

(** Rows the evaluator gives the label [lbl]. *)
Definition label_count (today : Z) (lbl : string) (d : list Device) : nat :=
  List.length (filter (fun r => String.eqb (fst (maintenance_status today r)) lbl) d).

(** A device due [k] nanoseconds after the epoch. *)
Definition ex_due_row (k : Z) : Device :=
  loaded_row "KHL-PHC-004" (Some "ECG") (Some k).

(** A consistent frame: every row's [Center_Code] is the one [load_data]
    derives from its asset id. *)
Definition center_code_consistent (d : list Device) : Prop :=
  Forall (fun r => center_code r = Some (derive_center_code (asset_id r))) d.

(** An add form for center "الخلاوية". *)
Definition ex_add_form : AddForm :=
  mkAddForm (Some "الخلاوية") "Monitor" "" "" (Some "Lab") "" 0 "عامل" 90
    "متوسط" "".

(** Both derived columns as [load_data] computes them from the asset id:
    [Center_Code] and [Center_Name = Center_Code.map(CENTERS_DICT)]. *)
Definition derived_columns (d : list Device) : Prop :=
  Forall (fun r => center_code r = Some (derive_center_code (asset_id r)) /\
                   center_name r = CENTERS_DICT (derive_center_code (asset_id r))) d.

(** One row of [apply_interval], both passes composed. *)
Definition interval_row (selected : string) (n : Z) (r : Device) : Device :=
  if equipment_mask selected r
  then match last_maintenance r with
       | Some last =>
           set_next_maintenance (Some (last + timedelta_days n))
             (set_maintenance_interval_days n r)
       | None => set_maintenance_interval_days n r
       end
  else r.



(** An edit form: new name, maker, model, status, priority, a 120 day
    interval and notes. *)
Definition ex_edit_form : EditForm :=
  mkEditForm "ECG-2" "GE" "M1" "معطل" "عالي" 120 "moved".

(** ** Lemmas on the row operations *)

Lemma loc_update_length (i : nat) (f : Device -> Device) (l : list Device) :
  List.length (loc_update i f l) = List.length l.
Proof.
  revert i; induction l as [|r t IH]; intros [|j]; simpl; auto.
Qed.

Lemma loc_update_nth_eq (i : nat) (f : Device -> Device) (l : list Device) :
  nth_error (loc_update i f l) i = option_map f (nth_error l i).
Proof.
  revert i; induction l as [|r t IH]; intros [|j]; simpl; auto.
Qed.

Lemma loc_update_nth_ne (i j : nat) (f : Device -> Device) (l : list Device) :
  i <> j -> nth_error (loc_update i f l) j = nth_error l j.
Proof.
  revert i j; induction l as [|r t IH]; intros [|i] [|j] Hne; simpl;
    try reflexivity; try congruence.
  apply IH; congruence.
Qed.

Lemma find_index_spec (p : Device -> bool) (l : list Device) (i : nat) :
  find_index p l = Some i -> exists r, nth_error l i = Some r /\ p r = true.
Proof.
  revert i; induction l as [|r t IH]; intros i H; simpl in H; [discriminate|].
  destruct (p r) eqn:Hp.
  - injection H as <-; exists r; auto.
  - destruct (find_index p t) as [k|] eqn:Hk; [|discriminate].
    injection H as <-; simpl; apply IH; reflexivity.
Qed.

(** Floor division in whole days. *)
Lemma td_days_bounds (delta : Z) :
  td_days delta * ns_per_day <= delta < (td_days delta + 1) * ns_per_day.
Proof.
  unfold td_days.
  pose proof (Z.div_mod delta ns_per_day ltac:(unfold ns_per_day; lia)).
  pose proof (Z.mod_pos_bound delta ns_per_day ltac:(unfold ns_per_day; lia)).
  lia.
Qed.

Lemma days_until_shift (d k : Z) : days_until d (d + timedelta_days k) = k.
Proof.
  unfold days_until, td_days, timedelta_days.
  replace (d + k * ns_per_day - d) with (k * ns_per_day) by lia.
  apply Z.div_mul; unfold ns_per_day; lia.
Qed.

(** ** C1: the classification *)

(** C1. For every session (whose clock gives [now]) and every row, the label
    of [calculate_maintenance_status] is one of the five distinct labels;
    an absent [Next_Maintenance] gives "undetermined"; otherwise
    [days_until] is the floor of [next - now] in days and the label is
    "overdue" below 0, "urgent" on [0..7], "upcoming" on [8..30], "good"
    above 30; and these four ranges partition the integers. *)
Theorem calculate_maintenance_status_classification :
  forall (s : App) (row : Device),
    let label := fst (fst (calculate_maintenance_status row s)) in
    let now := clock s in
    NoDup status_labels /\ In label status_labels /\
    (next_maintenance row = None -> label = lbl_undetermined) /\
    (forall next : Z, next_maintenance row = Some next ->
       let d := days_until now next in
       d * ns_per_day <= next - now < (d + 1) * ns_per_day /\
       (d < 0 -> label = lbl_overdue) /\
       (0 <= d <= 7 -> label = lbl_urgent) /\
       (8 <= d <= 30 -> label = lbl_upcoming) /\
       (30 < d -> label = lbl_good)) /\
    (forall d : Z,
       List.length (filter (fun b : bool => b)
         [d <? 0; (0 <=? d) && (d <=? 7); (8 <=? d) && (d <=? 30); 30 <? d])
       = 1%nat).
Proof.
  intros s row label now.
  assert (Hl : label = fst (maintenance_status now row)) by reflexivity.
  clearbody label; subst label.
  split; [vm_compute; repeat constructor; simpl; intuition discriminate|].
  split.
  { unfold maintenance_status, status_labels.
    destruct (next_maintenance row) as [n|]; [|simpl; auto].
    destruct (days_until now n <? 0); [simpl; auto|].
    destruct (days_until now n <=? 7); [simpl; auto|].
    destruct (days_until now n <=? 30); simpl; auto 6. }
  split; [unfold maintenance_status; intros ->; reflexivity|].
  split.
  { intros n Hn d. unfold maintenance_status; rewrite Hn; fold d.
    split; [apply td_days_bounds|].
    repeat split; intros Hd.
    - destruct (Z.ltb_spec d 0); [reflexivity|lia].
    - destruct (Z.ltb_spec d 0); [lia|].
      destruct (Z.leb_spec d 7); [reflexivity|lia].
    - destruct (Z.ltb_spec d 0); [lia|].
      destruct (Z.leb_spec d 7); [lia|].
      destruct (Z.leb_spec d 30); [reflexivity|lia].
    - destruct (Z.ltb_spec d 0); [lia|].
      destruct (Z.leb_spec d 7); [lia|].
      destruct (Z.leb_spec d 30); [lia|reflexivity]. }
  intros d.
  destruct (Z.ltb_spec d 0), (Z.leb_spec 0 d), (Z.leb_spec d 7),
           (Z.leb_spec 8 d), (Z.leb_spec d 30), (Z.ltb_spec 30 d);
    simpl; try reflexivity; lia.
Qed.

(** C2. [calculate_maintenance_status] only reads the clock: run on a row in
    any session it leaves the session unchanged (no row, file or message is
    touched), a second run gives the same result, and the result is
    determined by the row and the clock reading alone. The source returns
    the pair (label, icon); the day count [days_until] it computes is a
    function of the same two inputs. *)
Theorem calculate_maintenance_status_pure :
  forall (row : Device) (s : App),
    let (r1, s1) := calculate_maintenance_status row s in
    let (r2, s2) := calculate_maintenance_status row s1 in
    s1 = s /\ s2 = s /\ r1 = r2 /\
    r1 = maintenance_status (clock s) row /\
    (forall s' : App, clock s' = clock s ->
       fst (calculate_maintenance_status row s') = r1).
Proof.
  intros row s. cbn.
  repeat split.
  intros s' Hc; rewrite Hc; reflexivity.
Qed.

(** ** Logging maintenance *)

Lemma log_updates_length show_date f device idx d :
  List.length (log_updates show_date f device idx d) = List.length d.
Proof. unfold log_updates; rewrite !loc_update_length; reflexivity. Qed.

Lemma log_updates_nth_eq show_date f device idx d :
  nth_error (log_updates show_date f device idx d) idx
  = option_map (logged_row show_date f device) (nth_error d idx).
Proof.
  unfold log_updates; rewrite !loc_update_nth_eq.
  destruct (nth_error d idx); reflexivity.
Qed.

Lemma log_updates_nth_ne show_date f device idx d j :
  j <> idx ->
  nth_error (log_updates show_date f device idx d) j = nth_error d j.
Proof.
  intros Hne; unfold log_updates; rewrite !loc_update_nth_ne by congruence.
  reflexivity.
Qed.

(** One run of the submit branch when the asset id is found. *)
Lemma log_maintenance_run show_date io_ok aid f s idx device :
  find_index (fun r => String.eqb (asset_id r) aid) (df s) = Some idx ->
  nth_error (df s) idx = Some device ->
  log_maintenance show_date io_ok aid f s =
  (Some io_ok,
   mkApp (log_updates show_date f device idx (df s))
     (if io_ok then map drop_temp_cols (log_updates show_date f device idx (df s))
      else disk s)
     (messages s ++ (if io_ok then [Success log_ok_text]
                     else [Error save_error_text; Error log_failed_text]))
     (clock s)).
Proof.
  intros Hf Hn. unfold log_maintenance; cbn. rewrite Hf, Hn.
  destruct io_ok; cbn; [reflexivity|]. rewrite <- app_assoc; reflexivity.
Qed.

(** C3. Logging maintenance on date [D] (a timestamp) with interval [I]
    for an asset id present in the frame sets that row's [Last_Maintenance]
    to [D] and its [Next_Maintenance] to exactly [D + I] days, whether or
    not the save then succeeds; evaluated with the clock at [D], the row has
    [days_until = I] and is "upcoming" when [8 <= I <= 30] and "good" when
    [I > 30]. *)
Theorem log_maintenance_next_due :
  forall (show_date : Z -> string) (io_ok : bool) (aid : string)
         (f : MaintenanceForm) (s : App) (idx : nat),
    find_index (fun r => String.eqb (asset_id r) aid) (df s) = Some idx ->
    let D := maintenance_date f in
    let I := next_maintenance_interval f in
    exists r,
      nth_error (df (snd (log_maintenance show_date io_ok aid f s))) idx = Some r /\
      asset_id r = aid /\
      last_maintenance r = Some D /\
      next_maintenance r = Some (D + timedelta_days I) /\
      days_until D (D + timedelta_days I) = I /\
      (forall s' : App, clock s' = D ->
         (8 <= I <= 30 ->
            fst (fst (calculate_maintenance_status r s')) = lbl_upcoming) /\
         (30 < I -> fst (fst (calculate_maintenance_status r s')) = lbl_good)).
Proof.
  intros show_date io_ok aid f s idx Hf D I.
  destruct (find_index_spec _ _ _ Hf) as [device [Hn Hid]].
  rewrite (log_maintenance_run show_date io_ok aid f s idx device Hf Hn); cbn.
  rewrite log_updates_nth_eq, Hn; cbn.
  eexists; split; [reflexivity|].
  split; [apply String.eqb_eq; exact Hid|].
  split; [reflexivity|]. split; [reflexivity|].
  split; [apply days_until_shift|].
  intros s' Hc; cbn; rewrite Hc; unfold maintenance_status; cbn.
  fold D I; rewrite days_until_shift.
  split; intros HI.
  - destruct (Z.ltb_spec I 0); [lia|].
    destruct (Z.leb_spec I 7); [lia|].
    destruct (Z.leb_spec I 30); [reflexivity|lia].
  - destruct (Z.ltb_spec I 0); [lia|].
    destruct (Z.leb_spec I 7); [lia|].
    destruct (Z.leb_spec I 30); [lia|reflexivity].
Qed.

(** Witness of C3: row [KHL-PHC-001] of [ex_session], logged on day 10 with
    a 30 day interval. *)
Lemma log_maintenance_next_due_witness :
  find_index (fun r => String.eqb (asset_id r) "KHL-PHC-001") (df ex_session) = Some 0%nat /\
  exists r,
    nth_error (df (snd (log_maintenance ex_show_date true "KHL-PHC-001" (ex_form 30) ex_session))) 0
      = Some r /\
    asset_id r = "KHL-PHC-001" /\
    last_maintenance r = Some (timedelta_days 10) /\
    next_maintenance r = Some (timedelta_days 10 + timedelta_days 30) /\
    days_until (timedelta_days 10) (timedelta_days 10 + timedelta_days 30) = 30 /\
    (forall s' : App, clock s' = timedelta_days 10 ->
       (8 <= 30 <= 30 -> fst (fst (calculate_maintenance_status r s')) = lbl_upcoming) /\
       (30 < 30 -> fst (fst (calculate_maintenance_status r s')) = lbl_good)).
Proof.
  split; [vm_compute; reflexivity|].
  apply (log_maintenance_next_due ex_show_date true "KHL-PHC-001" (ex_form 30) ex_session 0%nat).
  vm_compute; reflexivity.
Defined.

(** C9. Submitting the log form with interval [N] for an asset id present
    in the frame changes only the first row with that id: its
    [Maintenance_Interval_Days] becomes [N], [Last_Maintenance] the date,
    [Next_Maintenance] the date plus [N] days, [Device_Status] the chosen
    status, and [Notes] the old notes ([""] for [NaN]) followed by the new
    line ["\n[date] type - technician: notes"]; every other column of the
    row and every other row is unchanged. *)
Theorem log_maintenance_frame :
  forall (show_date : Z -> string) (io_ok : bool) (aid : string)
         (f : MaintenanceForm) (s : App) (idx : nat),
    find_index (fun r => String.eqb (asset_id r) aid) (df s) = Some idx ->
    exists device,
      nth_error (df s) idx = Some device /\
      let s' := snd (log_maintenance show_date io_ok aid f s) in
      List.length (df s') = List.length (df s) /\
      (forall j : nat, j <> idx -> nth_error (df s') j = nth_error (df s) j) /\
      nth_error (df s') idx =
        Some (mkDevice (asset_id device) (scientific_department device)
                (scientific_equipment_name device) (manufacturer device)
                (model device) (serial_no device) (installation_date device)
                (center_code device) (center_name device)
                (Some (maintenance_date f))
                (Some (maintenance_date f
                       + timedelta_days (next_maintenance_interval f)))
                (next_maintenance_interval f)
                (device_status_after f) (priority device)
                (Some ((match notes device with Some n => n | None => "" end)
                       ++ new_note show_date f))).
Proof.
  intros show_date io_ok aid f s idx Hf.
  destruct (find_index_spec _ _ _ Hf) as [device [Hn _]].
  exists device; split; [exact Hn|].
  rewrite (log_maintenance_run show_date io_ok aid f s idx device Hf Hn); cbn.
  split; [apply log_updates_length|].
  split; [intros j Hj; apply log_updates_nth_ne; exact Hj|].
  rewrite log_updates_nth_eq, Hn; reflexivity.
Qed.

(** Witness of C9: row [KHL-PHC-002] (index 1) of [ex_session]. *)
Lemma log_maintenance_frame_witness :
  find_index (fun r => String.eqb (asset_id r) "KHL-PHC-002") (df ex_session) = Some 1%nat /\
  exists device,
    nth_error (df ex_session) 1 = Some device /\
    let s' := snd (log_maintenance ex_show_date false "KHL-PHC-002" (ex_form 45) ex_session) in
    List.length (df s') = List.length (df ex_session) /\
    (forall j : nat, j <> 1%nat -> nth_error (df s') j = nth_error (df ex_session) j) /\
    nth_error (df s') 1 =
      Some (mkDevice (asset_id device) (scientific_department device)
              (scientific_equipment_name device) (manufacturer device)
              (model device) (serial_no device) (installation_date device)
              (center_code device) (center_name device)
              (Some (maintenance_date (ex_form 45)))
              (Some (maintenance_date (ex_form 45)
                     + timedelta_days (next_maintenance_interval (ex_form 45))))
              (next_maintenance_interval (ex_form 45))
              (device_status_after (ex_form 45)) (priority device)
              (Some ((match notes device with Some n => n | None => "" end)
                     ++ new_note ex_show_date (ex_form 45)))).
Proof.
  split; [vm_compute; reflexivity|].
  apply (log_maintenance_frame ex_show_date false "KHL-PHC-002" (ex_form 45) ex_session 1%nat).
  vm_compute; reflexivity.
Defined.

(** ** Failed saves *)

Lemma save_data_fail (d : list Device) (s : App) :
  save_data false d s =
  (false, mkApp (df s) (disk s) ((messages s ++ [Error save_error_text])%list) (clock s)).
Proof. reflexivity. Qed.

(** C7. When [to_excel] raises, [save_data] returns [false] (it does not
    raise) and shows an error, leaving the frame and the file as they were;
    the handlers that save after an edit keep the edit in
    [st.session_state.df]: logging maintenance (which also shows its own
    error) and the per-type interval update. *)
Theorem save_failure_keeps_edit :
  (forall (d : list Device) (s : App),
     let (ok, s') := save_data false d s in
     ok = false /\ df s' = df s /\ disk s' = disk s /\
     messages s' = (messages s ++ [Error save_error_text])%list) /\
  (forall (show_date : Z -> string) (aid : string) (f : MaintenanceForm) (s : App),
     let (res, s') := log_maintenance show_date false aid f s in
     match find_index (fun r => String.eqb (asset_id r) aid) (df s) with
     | Some idx =>
         exists device,
           nth_error (df s) idx = Some device /\
           res = Some false /\
           df s' = log_updates show_date f device idx (df s) /\
           disk s' = disk s /\
           messages s' = (messages s ++ [Error save_error_text; Error log_failed_text])%list
     | None => res = None /\ s' = s
     end) /\
  (forall (selected : string) (n : Z) (s : App),
     let (ok, s') := apply_interval_to_type false selected n s in
     ok = false /\ df s' = apply_interval selected n (df s) /\
     disk s' = disk s /\ messages s' = (messages s ++ [Error save_error_text])%list).
Proof.
  split; [intros d s; cbn; auto|].
  split.
  - intros show_date aid f s.
    destruct (find_index (fun r => String.eqb (asset_id r) aid) (df s)) as [idx|] eqn:Hf.
    + destruct (find_index_spec _ _ _ Hf) as [device [Hn _]].
      rewrite (log_maintenance_run show_date false aid f s idx device Hf Hn).
      exists device; cbn; auto 6.
    + unfold log_maintenance; cbn; rewrite Hf; cbn.
      split; [reflexivity|]; destruct s; reflexivity.
  - intros selected n s; cbn; auto.
Qed.

(** ** Per-type interval update *)

Lemma set_next_same_interval (n : Z) (r : Device) :
  set_next_maintenance (next_maintenance r) (set_maintenance_interval_days n r)
  = set_maintenance_interval_days n r.
Proof. destruct r; reflexivity. Qed.

(** C4 as stated fails: a masked row with no [Last_Maintenance] keeps its
    [Next_Maintenance], which need not be absent. Row [KHL-PHC-001] of
    [ex_session] (type "ECG") has no last maintenance and a next
    maintenance 3 days after the epoch, as a spreadsheet row or a device
    added with an installation date has; after the update of type "ECG" to
    60 days its next maintenance is still there. *)
Lemma apply_interval_keeps_present_next :
  ~ (forall r : Device,
       In r (df (snd (apply_interval_to_type true "ECG" 60 ex_session))) ->
       equipment_mask "ECG" r = true ->
       last_maintenance r = None ->
       next_maintenance r = None).
Proof.
  intros H.
  assert (Hin : In (set_maintenance_interval_days 60 ex_row1)
                   (df (snd (apply_interval_to_type true "ECG" 60 ex_session))))
    by (left; reflexivity).
  specialize (H _ Hin eq_refl eq_refl). discriminate H.
Qed.

(** C4 (amended). Applying interval [N] to equipment type [T] rewrites each
    row in place: a row of type [T] gets [Maintenance_Interval_Days = N]
    and, when it has a [Last_Maintenance] [l], [Next_Maintenance = l + N]
    days; a row of type [T] without [Last_Maintenance] keeps its
    [Next_Maintenance] as it was (absent or not); rows of other types (or
    with no name) are unchanged; no row is added or removed. *)
Theorem apply_interval_to_type_effect :
  forall (io_ok : bool) (selected : string) (n : Z) (s : App),
    let s' := snd (apply_interval_to_type io_ok selected n s) in
    List.length (df s') = List.length (df s) /\
    (forall (i : nat) (r : Device),
       nth_error (df s) i = Some r ->
       (equipment_mask selected r = false -> nth_error (df s') i = Some r) /\
       (equipment_mask selected r = true ->
          nth_error (df s') i =
            Some (set_next_maintenance
                    (match last_maintenance r with
                     | Some last => Some (last + timedelta_days n)
                     | None => next_maintenance r
                     end)
                    (set_maintenance_interval_days n r)))).
Proof.
  intros io_ok selected n s s'.
  assert (Hs : df s' = apply_interval selected n (df s))
    by (subst s'; cbn; destruct io_ok; reflexivity).
  rewrite Hs; unfold apply_interval.
  split; [rewrite !length_map; reflexivity|].
  intros i r Hr.
  rewrite !nth_error_map, Hr; cbn.
  split; intros Hm; rewrite Hm.
  - rewrite Hm; reflexivity.
  - assert (Hm' : equipment_mask selected (set_maintenance_interval_days n r) = true)
      by (destruct r; exact Hm).
    rewrite Hm'.
    change (last_maintenance (set_maintenance_interval_days n r))
      with (last_maintenance r).
    destruct (last_maintenance r) as [last|]; [reflexivity|].
    rewrite set_next_same_interval; reflexivity.
Qed.

(** ** Restore *)

(** C8. Restoring from a backup is all or nothing: when [read_excel] fails
    the frame, the file and the clock stay as they were and only an error is
    shown; when it succeeds the parsed frame replaces the frame as a whole. *)
Theorem restore_backup_all_or_nothing :
  forall (parsed : option (list Device)) (s : App),
    let s' := snd (restore_backup parsed s) in
    match parsed with
    | None =>
        df s' = df s /\ disk s' = disk s /\ clock s' = clock s /\
        messages s' = (messages s ++ [Error restore_error_text])%list
    | Some restored =>
        df s' = restored /\ disk s' = disk s /\ clock s' = clock s /\
        messages s' = (messages s ++ [Success restore_ok_text])%list
    end.
Proof.
  intros [restored|] s; cbn; auto.
Qed.

(** ** Dashboard *)

(** C10. On the dashboard, the table of devices needing immediate
    maintenance keeps exactly the rows with a [Next_Maintenance] at most 7
    whole days ahead, with no lower bound, while the urgent metric also
    requires [Next_Maintenance >= now]. Every overdue row is in the table
    and not counted, so with the clock at the epoch, a frame holding one
    device due one day earlier shows that device in the table and an urgent
    count of 0. *)
Theorem dashboard_urgent_table_vs_metric :
  (forall (today : Z) (d : list Device) (r : Device),
     In r (urgent_devices today d) <->
     In r d /\ exists n, next_maintenance r = Some n /\ days_until today n <= 7) /\
  (forall (today : Z) (d : list Device) (r : Device),
     In r (filter (urgent_metric_row today) d) <->
     In r d /\ exists n, next_maintenance r = Some n /\
                         days_until today n <= 7 /\ today <= n) /\
  (forall (today n : Z) (r : Device),
     next_maintenance r = Some n -> n < today ->
     urgent_table_row today r = true /\ urgent_metric_row today r = false) /\
  (urgent_devices 0 [ex_overdue_row] = [ex_overdue_row] /\
   urgent_count 0 [ex_overdue_row] = 0%nat).
Proof.
  split.
  { intros today d r; unfold urgent_devices, urgent_table_row.
    rewrite filter_In.
    destruct (next_maintenance r) as [n|]; split.
    - intros [Hin Hle]; split; [exact Hin|]; exists n; split; [reflexivity|lia].
    - intros [Hin [m [Hm Hle]]]; injection Hm as <-; split; [exact Hin|lia].
    - intros [_ H]; discriminate.
    - intros [_ [m [Hm _]]]; discriminate. }
  split.
  { intros today d r; unfold urgent_metric_row.
    rewrite filter_In.
    destruct (next_maintenance r) as [n|]; split.
    - intros [Hin Hb]; apply andb_true_iff in Hb as [H1 H2].
      split; [exact Hin|]; exists n; split; [reflexivity|lia].
    - intros [Hin [m [Hm [H1 H2]]]]; injection Hm as <-.
      split; [exact Hin|]; apply andb_true_iff; lia.
    - intros [_ H]; discriminate.
    - intros [_ [m [Hm _]]]; discriminate. }
  split.
  { intros today n r Hn Hlt.
    unfold urgent_table_row, urgent_metric_row; rewrite Hn.
    pose proof (td_days_bounds (n - today)) as Hb.
    unfold days_until; unfold ns_per_day in Hb.
    split.
    - apply Z.leb_le; lia.
    - apply andb_false_iff; right; apply Z.leb_gt; lia. }
  split; vm_compute; reflexivity.
Qed.

(** ** Asset id allocation *)

Lemma existing_ids_spec (d : list Device) (code aid : string) :
  In aid (existing_ids d code) <->
  exists r, In r d /\ center_code r = Some code /\ asset_id r = aid.
Proof.
  unfold existing_ids; rewrite in_map_iff; split.
  - intros [r [Hid Hin]]; apply filter_In in Hin as [Hin Hc].
    exists r; split; [exact Hin|]; split; [|exact Hid].
    destruct (center_code r) as [c|]; [|discriminate].
    apply String.eqb_eq in Hc; subst c; reflexivity.
  - intros [r [Hin [Hc Hid]]]; exists r; split; [exact Hid|].
    apply filter_In; split; [exact Hin|]; rewrite Hc; apply String.eqb_refl.
Qed.

Lemma max_suffix_fold (ids : list string) (acc : Z) :
  let m := fold_left max_step ids acc in
  acc <= m /\
  (forall aid n, In aid ids -> python_int (last_piece aid) = Some n -> n <= m) /\
  (m = acc \/ exists aid, In aid ids /\ python_int (last_piece aid) = Some m).
Proof.
  revert acc; induction ids as [|a t IH]; intros acc; cbn.
  - split; [lia|]; split; [intros ? ? []|left; reflexivity].
  - destruct (IH (max_step acc a)) as [Hge [Hall Hex]].
    unfold max_step in *.
    destruct (python_int (last_piece a)) as [k|] eqn:Hk.
    + split; [lia|]. split.
      * intros aid n [<-|Hin] Hn; [rewrite Hk in Hn; injection Hn as <-; lia|].
        exact (Hall aid n Hin Hn).
      * destruct Hex as [Heq|[aid [Hin Hp]]].
        -- destruct (Z.max_spec acc k) as [[_ Hm]|[_ Hm]]; rewrite Heq, Hm.
           ++ right; exists a; auto.
           ++ left; reflexivity.
        -- right; exists aid; auto.
    + split; [exact Hge|]. split.
      * intros aid n [<-|Hin] Hn; [rewrite Hk in Hn; discriminate|].
        exact (Hall aid n Hin Hn).
      * destruct Hex as [Heq|[aid [Hin Hp]]]; [left; exact Heq|].
        right; exists aid; auto.
Qed.

(** C5 as stated fails: the scan filters on the [Center_Code] column (the
    first two ['-'] fields of the asset id), not on the asset id starting
    with the code. A spreadsheet row [KHL-PHCX-009] starts with [KHL-PHC]
    but has [Center_Code = "KHL-PHCX"]: allocation for center
    "الخلاوية" ([KHL-PHC]) ignores it and gives [KHL-PHC-001], where the
    prefix scan gives [KHL-PHC-010]. *)
Lemma asset_id_scan_is_not_prefix :
  let d := [loaded_row "KHL-PHCX-009" (Some "ECG") None] in
  allocate_asset_id d "الخلاوية" = Some "KHL-PHC-001" /\
  new_asset_id_by_prefix d "KHL-PHC" = "KHL-PHC-010" /\
  allocate_asset_id d "الخلاوية" <> Some (new_asset_id_by_prefix d "KHL-PHC").
Proof.
  vm_compute; split; [reflexivity|]; split; [reflexivity|]; discriminate.
Qed.

(** C5 (amended). For a new device of center [C] with code [K]: the
    scanned ids are exactly the asset ids of the rows whose [Center_Code]
    is [K]; the number [M] used is the largest suffix (last ['-'] field)
    that [int] parses among them, or 0: it is at least 0 and every parsed
    suffix, it is 0 or one of them, and suffixes that do not parse are
    skipped without error; the new id is [K] followed by [M + 1] written
    with at least three digits (for [0 <= n < 1000] exactly three, reading
    back as [n]). For every center of [CENTERS], existing ids
    [K-001, K-002, K-005] give [K-006] and no ids give [K-001]. *)
Theorem asset_id_allocation :
  (forall (d : list Device) (code aid : string),
     In aid (existing_ids d code) <->
     exists r, In r d /\ center_code r = Some code /\ asset_id r = aid) /\
  (forall ids : list string,
     0 <= max_suffix ids /\
     (forall aid n, In aid ids -> python_int (last_piece aid) = Some n ->
                    n <= max_suffix ids) /\
     (max_suffix ids = 0 \/
      exists aid, In aid ids /\ python_int (last_piece aid) = Some (max_suffix ids))) /\
  (forall (d : list Device) (code : string),
     new_asset_id d code
     = code ++ "-" ++ format_03d (max_suffix (existing_ids d code) + 1)) /\
  forallb (fun n => Nat.eqb (String.length (format_03d n)) 3
                    && match python_int (format_03d n) with
                       | Some m => Z.eqb m n
                       | None => false
                       end)
          (map Z.of_nat (seq 0 1000)) = true /\
  Forall (fun p =>
            allocate_asset_id (ex_center_rows (snd p)) (fst p)
              = Some (snd p ++ "-006") /\
            allocate_asset_id [] (fst p) = Some (snd p ++ "-001"))
         CENTERS.
Proof.
  split; [exact existing_ids_spec|].
  split; [intros ids; apply (max_suffix_fold ids 0)|].
  split; [reflexivity|].
  split; [vm_compute; reflexivity|].
  repeat constructor; vm_compute; reflexivity.
Qed.

(** ** The centers table *)

Lemma dict_lookup_In (pairs : list (string * string)) (k v : string) :
  dict_lookup pairs k = Some v -> In (k, v) pairs.
Proof.
  induction pairs as [|[k' v'] t IH]; cbn; [discriminate|].
  destruct (dict_lookup t k) as [w|].
  - intros H; right; apply IH; exact H.
  - destruct (String.eqb_spec k' k) as [->|]; [|discriminate].
    intros H; injection H as <-; left; reflexivity.
Qed.

Lemma dict_lookup_complete (pairs : list (string * string)) (k v : string) :
  NoDup (map fst pairs) -> In (k, v) pairs -> dict_lookup pairs k = Some v.
Proof.
  induction pairs as [|[k' v'] t IH]; cbn; [intros _ []|].
  intros Hnd Hin; inversion Hnd as [|? ? Hnotin Hnd']; subst.
  destruct Hin as [Heq|Hin].
  - injection Heq as -> ->.
    destruct (dict_lookup t k) as [w|] eqn:Hw.
    + exfalso; apply Hnotin; apply dict_lookup_In in Hw.
      apply in_map_iff; exists (k, w); auto.
    + rewrite String.eqb_refl; reflexivity.
  - rewrite (IH Hnd' Hin); reflexivity.
Qed.

Lemma nodupb_NoDup (l : list string) : nodupb l = true -> NoDup l.
Proof.
  induction l as [|x t IH]; cbn; intros H; constructor.
  - apply andb_true_iff in H as [Hx _]; apply negb_true_iff in Hx.
    intros Hin; assert (Hex : existsb (String.eqb x) t = true)
      by (apply existsb_exists; exists x; split; [exact Hin|apply String.eqb_refl]).
    congruence.
  - apply andb_true_iff in H as [_ Ht]; exact (IH Ht).
Qed.

Lemma centers_names_nodup : NoDup (map fst CENTERS).
Proof. apply nodupb_NoDup; vm_compute; reflexivity. Qed.

Lemma centers_codes_nodup : NoDup (map snd CENTERS).
Proof. apply nodupb_NoDup; vm_compute; reflexivity. Qed.

Lemma centers_dict_spec (name code : string) :
  CENTERS_DICT code = Some name <-> In (name, code) CENTERS.
Proof.
  unfold CENTERS_DICT; split.
  - intros H; apply dict_lookup_In, in_map_iff in H as [[n c] [Heq Hin]].
    cbn in Heq; injection Heq as -> ->; exact Hin.
  - intros Hin; apply dict_lookup_complete.
    + rewrite map_map; exact centers_codes_nodup.
    + apply in_map_iff; exists (name, code); auto.
Qed.

Lemma centers_dict_rev_spec (name code : string) :
  CENTERS_DICT_REV name = Some code <-> In (name, code) CENTERS.
Proof.
  unfold CENTERS_DICT_REV; split.
  - apply dict_lookup_In.
  - apply dict_lookup_complete, centers_names_nodup.
Qed.

(** C6 as stated fails: the codes of [CENTERS] are not three letters long;
    the first, [KHL-PHC], has seven characters. *)
Lemma center_codes_not_three_letters :
  ~ Forall (fun p => String.length (snd p) = 3%nat) CENTERS.
Proof.
  intros H; inversion H as [|p l Hlen _]; vm_compute in Hlen; discriminate.
Qed.

(** C6 (amended). [CENTERS] lists 25 distinct center names with 25
    distinct codes, each three capital letters followed by ["-PHC"];
    [CENTERS_DICT] (code to name, used by [load_data] for [Center_Name])
    and [CENTERS_DICT_REV] (name to code, used by allocation) both agree
    with the table and are inverse to each other. *)
Theorem centers_table_bijection :
  List.length CENTERS = 25%nat /\
  NoDup (map fst CENTERS) /\ NoDup (map snd CENTERS) /\
  Forall (fun p => center_code_shape (snd p) = true) CENTERS /\
  (forall name code : string,
     CENTERS_DICT code = Some name <-> In (name, code) CENTERS) /\
  (forall name code : string,
     CENTERS_DICT_REV name = Some code <-> In (name, code) CENTERS) /\
  (forall name code : string,
     CENTERS_DICT code = Some name <-> CENTERS_DICT_REV name = Some code).
Proof.
  split; [reflexivity|].
  split; [exact centers_names_nodup|].
  split; [exact centers_codes_nodup|].
  split; [repeat constructor|].
  split; [exact centers_dict_spec|].
  split; [exact centers_dict_rev_spec|].
  intros name code; rewrite centers_dict_spec, centers_dict_rev_spec; tauto.
Qed.

(** ** Splitting and parsing allocated ids *)

Lemma split_on_nonempty (sep : ascii) (s : string) : split_on sep s <> [].
Proof.
  destruct s as [|c t]; cbn; [discriminate|].
  destruct (split_on sep t) as [|w ws]; [discriminate|].
  destruct (Ascii.eqb c sep); discriminate.
Qed.

Lemma split_on_app_sep (sep : ascii) (a b : string) :
  split_on sep (a ++ String sep b) = (split_on sep a ++ split_on sep b)%list.
Proof.
  induction a as [|c a IH]; cbn.
  - destruct (split_on sep b) as [|w ws] eqn:Hb;
      [exfalso; exact (split_on_nonempty sep b Hb)|].
    rewrite Ascii.eqb_refl; reflexivity.
  - rewrite IH.
    destruct (split_on sep a) as [|w ws] eqn:Ha;
      [exfalso; exact (split_on_nonempty sep a Ha)|].
    cbn; destruct (Ascii.eqb c sep); reflexivity.
Qed.

Lemma split_on_no_sep (sep : ascii) (s : string) :
  (forall c, In c (list_ascii_of_string s) -> Ascii.eqb c sep = false) ->
  split_on sep s = [s].
Proof.
  induction s as [|c t IH]; cbn; intros H; [reflexivity|].
  rewrite IH by (intros x Hx; apply H; right; exact Hx).
  rewrite (H c (or_introl eq_refl)); reflexivity.
Qed.

Lemma list_ascii_of_string_app (a b : string) :
  list_ascii_of_string (a ++ b)
  = (list_ascii_of_string a ++ list_ascii_of_string b)%list.
Proof. induction a as [|c a IH]; cbn; [reflexivity|rewrite IH; reflexivity]. Qed.

Lemma digit_char_spec (d : Z) :
  0 <= d < 10 ->
  is_digit (digit_char d) = true /\
  Z.of_nat (nat_of_ascii (digit_char d) - 48) = d.
Proof.
  intros Hd. unfold digit_char, is_digit.
  rewrite nat_ascii_embedding by lia.
  split; [apply andb_true_iff; split; apply Nat.leb_le; lia|lia].
Qed.

Lemma digits_rev_digits (f : nat) (n : Z) :
  0 <= n -> forall c, In c (digits_rev f n) -> is_digit c = true.
Proof.
  revert n; induction f as [|f IH]; intros n Hn c Hc; cbn in Hc; [contradiction|].
  destruct Hc as [<-|Hc].
  - apply digit_char_spec; apply Z.mod_pos_bound; lia.
  - destruct (n <? 10); [contradiction|].
    apply (IH (n / 10)); [apply Z.div_pos; lia|exact Hc].
Qed.

Lemma read_digits_cons_digit (c : ascii) (t : list ascii) (acc : Z) (b : bool) :
  is_digit c = true ->
  read_digits (c :: t) acc b
  = read_digits t (acc * 10 + Z.of_nat (nat_of_ascii c - 48)) true.
Proof. intros H; cbn [read_digits]; rewrite H; reflexivity. Qed.

Lemma digits_rev_S (f : nat) (n : Z) :
  digits_rev (S f) n
  = digit_char (n mod 10) :: (if n <? 10 then [] else digits_rev f (n / 10)).
Proof. reflexivity. Qed.

(** Reading the digits [digits_rev] wrote gives the number back. *)
Lemma read_digits_rev (f : nat) (n acc : Z) (b : bool) (rest : list ascii) :
  0 <= n < 10 ^ Z.of_nat (S f) ->
  read_digits (rev (digits_rev (S f) n) ++ rest) acc b
  = read_digits rest (acc * 10 ^ Z.of_nat (List.length (digits_rev (S f) n)) + n) true.
Proof.
  revert n acc b rest; induction f as [|f IH]; intros n acc b rest Hn.
  - assert (Hlt : n < 10) by (cbn in Hn; lia).
    rewrite digits_rev_S. apply Z.ltb_lt in Hlt as Hb; rewrite Hb; cbn [rev app].
    destruct (digit_char_spec (n mod 10)) as [Hd Hv]; [apply Z.mod_pos_bound; lia|].
    cbn [app]; rewrite read_digits_cons_digit, Hv, Z.mod_small by (lia || exact Hd).
    f_equal; cbn; lia.
  - rewrite digits_rev_S.
    destruct (digit_char_spec (n mod 10)) as [Hd Hv]; [apply Z.mod_pos_bound; lia|].
    destruct (Z.ltb_spec n 10) as [Hlt|Hge].
    + cbn [rev app]; rewrite read_digits_cons_digit, Hv, Z.mod_small by (lia || exact Hd).
      f_equal; cbn; lia.
    + cbn [rev]. rewrite <- app_assoc; cbn [app].
      rewrite IH.
      * rewrite read_digits_cons_digit, Hv by exact Hd.
        cbn [List.length]. rewrite Nat2Z.inj_succ, Z.pow_succ_r by lia.
        f_equal. pose proof (Z.div_mod n 10 ltac:(lia)). nia.
      * split; [apply Z.div_pos; lia|].
        apply Z.div_lt_upper_bound; [lia|].
        rewrite Nat2Z.inj_succ, Z.pow_succ_r in Hn by lia; lia.
Qed.

Lemma read_zeros (k : nat) (l : list ascii) (b : bool) :
  read_digits (repeat "0"%char k ++ l) 0 b
  = read_digits l 0 (match k with O => b | S _ => true end).
Proof.
  revert b; induction k as [|k IH]; intros b; [reflexivity|].
  cbn [repeat app]. rewrite read_digits_cons_digit by reflexivity.
  replace (0 * 10 + Z.of_nat (nat_of_ascii "0"%char - 48)) with 0 by reflexivity.
  rewrite IH; destruct k; reflexivity.
Qed.

Lemma drop_spaces_id (l : list ascii) :
  (forall c, In c l -> is_digit c = true) -> drop_spaces l = l.
Proof.
  destruct l as [|c t]; intros H; [reflexivity|].
  change (drop_spaces (c :: t)) with (if is_space c then drop_spaces t else c :: t).
  assert (Hs : is_space c = false).
  { specialize (H c (or_introl eq_refl)). unfold is_digit, is_space in *; cbv zeta in *.
    apply andb_true_iff in H as [H1 H2]; apply Nat.leb_le in H1; apply Nat.leb_le in H2.
    apply orb_false_iff; split.
    - apply andb_false_iff; right; apply Nat.leb_gt; lia.
    - apply Nat.eqb_neq; lia. }
  rewrite Hs; reflexivity.
Qed.

Lemma python_int_digit_head (c : ascii) (t : list ascii) :
  is_digit c = true ->
  match c :: t with
  | "+"%char :: t' => read_digits t' 0 false
  | "-"%char :: t' => option_map Z.opp (read_digits t' 0 false)
  | l => read_digits l 0 false
  end = read_digits (c :: t) 0 false.
Proof.
  intros H; destruct c as [[] [] [] [] [] [] [] []];
    cbn in H; try discriminate; reflexivity.
Qed.

Lemma decimal_fuel_bound (n : Z) :
  0 <= n -> n < 10 ^ Z.of_nat (S (S (Z.to_nat (Z.log2 n)))).
Proof.
  intros Hn. pose proof (Z.log2_nonneg n) as Hl.
  replace (Z.of_nat (S (S (Z.to_nat (Z.log2 n))))) with (Z.succ (Z.log2 n) + 1) by lia.
  destruct (Z.eq_dec n 0) as [->|Hn0]; [apply Z.pow_pos_nonneg; lia|].
  destruct (Z.log2_spec n ltac:(lia)) as [_ Hup].
  eapply Z.lt_le_trans; [exact Hup|].
  eapply Z.le_trans; [apply (Z.pow_le_mono_l 2 10); lia|].
  apply Z.pow_le_mono_r; lia.
Qed.

(** [int(f"{n:03d}") == n] for [n >= 0]. *)
Lemma python_int_format_03d (n : Z) : 0 <= n -> python_int (format_03d n) = Some n.
Proof.
  intros Hn. unfold python_int, format_03d, decimal.
  set (F := S (Z.to_nat (Z.log2 n))).
  set (k := (3 - String.length (string_of_list_ascii (rev (digits_rev (S F) n))))%nat).
  rewrite list_ascii_of_string_app, !list_ascii_of_string_of_list_ascii.
  assert (Hdig : forall c, In c (repeat "0"%char k ++ rev (digits_rev (S F) n)) ->
                           is_digit c = true).
  { intros c Hc; apply in_app_or in Hc as [Hc|Hc].
    - apply repeat_spec in Hc; subst c; reflexivity.
    - apply in_rev in Hc; exact (digits_rev_digits _ n Hn c Hc). }
  unfold strip. rewrite (drop_spaces_id _ Hdig).
  rewrite (drop_spaces_id (rev _)) by (intros c Hc; apply Hdig, in_rev, Hc).
  rewrite rev_involutive.
  destruct (repeat "0"%char k ++ rev (digits_rev (S F) n))%list as [|c t] eqn:Hl.
  - exfalso. rewrite digits_rev_S in Hl; cbn [rev] in Hl.
    apply (f_equal (@List.length ascii)) in Hl.
    rewrite !length_app in Hl; cbn in Hl; lia.
  - rewrite python_int_digit_head by (apply Hdig; left; reflexivity).
    rewrite <- Hl, read_zeros, <- (app_nil_r (rev (digits_rev (S F) n))).
    rewrite read_digits_rev by (split; [exact Hn|apply decimal_fuel_bound; exact Hn]).
    cbn; f_equal; lia.
Qed.

Lemma format_03d_no_dash (n : Z) :
  0 <= n -> forall c, In c (list_ascii_of_string (format_03d n)) ->
  Ascii.eqb c dash = false.
Proof.
  intros Hn c Hc. unfold format_03d, decimal in Hc.
  rewrite list_ascii_of_string_app, !list_ascii_of_string_of_list_ascii in Hc.
  assert (Hd : is_digit c = true).
  { apply in_app_or in Hc as [Hc|Hc].
    - apply repeat_spec in Hc; subst c; reflexivity.
    - apply in_rev in Hc; exact (digits_rev_digits _ n Hn c Hc). }
  destruct (Ascii.eqb_spec c dash) as [->|]; [discriminate Hd|reflexivity].
Qed.

(** Every code of [CENTERS] has exactly two ['-'] fields. *)
Lemma centers_codes_two_fields :
  forallb (fun p => match split_on dash (snd p) with
                    | [x; y] => String.eqb (String.concat "-" [x; y]) (snd p)
                    | _ => false
                    end) CENTERS = true.
Proof. vm_compute; reflexivity. Qed.

(** An id [code-NNN] of a center code reads back as its code and number. *)
Lemma allocated_id_fields (name code : string) (n : Z) :
  In (name, code) CENTERS -> 0 <= n ->
  derive_center_code (code ++ "-" ++ format_03d n) = code /\
  python_int (last_piece (code ++ "-" ++ format_03d n)) = Some n.
Proof.
  intros Hin Hn.
  pose proof (proj1 (forallb_forall _ CENTERS) centers_codes_two_fields _ Hin) as Hc.
  cbn [snd] in Hc.
  change ("-" ++ format_03d n) with (String dash (format_03d n)).
  unfold derive_center_code, last_piece.
  rewrite split_on_app_sep, (split_on_no_sep dash (format_03d n))
    by (apply format_03d_no_dash; exact Hn).
  destruct (split_on dash code) as [|x [|y [|z w]]]; try discriminate.
  apply String.eqb_eq in Hc.
  split; [exact Hc|]. cbn. apply python_int_format_03d; exact Hn.
Qed.

(** ** Allocation of a fresh asset id *)

Lemma max_suffix_nonneg (ids : list string) : 0 <= max_suffix ids.
Proof. apply (max_suffix_fold ids 0). Qed.

Lemma new_asset_id_fields (d : list Device) (name code : string) :
  In (name, code) CENTERS ->
  derive_center_code (new_asset_id d code) = code /\
  python_int (last_piece (new_asset_id d code))
  = Some (max_suffix (existing_ids d code) + 1).
Proof.
  intros Hin; unfold new_asset_id.
  apply (allocated_id_fields name); [exact Hin|].
  pose proof (max_suffix_nonneg (existing_ids d code)); lia.
Qed.

Lemma new_asset_id_not_in (d : list Device) (name code : string) :
  In (name, code) CENTERS -> center_code_consistent d ->
  ~ In (new_asset_id d code) (map asset_id d).
Proof.
  intros Hin Hc Hid.
  destruct (new_asset_id_fields d name code Hin) as [Hcode Hnum].
  apply in_map_iff in Hid as [r [Hr Hrin]].
  assert (Hex : In (asset_id r) (existing_ids d code)).
  { apply existing_ids_spec; exists r; split; [exact Hrin|]; split; [|reflexivity].
    rewrite (proj1 (Forall_forall _ d) Hc r Hrin), Hr, Hcode; reflexivity. }
  destruct (max_suffix_fold (existing_ids d code) 0) as [_ [Hall _]].
  rewrite Hr in Hex.
  specialize (Hall _ _ Hex Hnum).
  assert (Hm : max_suffix (existing_ids d code)
               = fold_left max_step (existing_ids d code) 0) by reflexivity.
  lia.
Qed.

Lemma add_device_run (io_ok : bool) (f : AddForm) (center code : string) (s : App) :
  a_center f = Some center ->
  truthy (a_equipment_name f) && truthy center && truthy_opt (a_department f) = true ->
  CENTERS_DICT_REV center = Some code ->
  add_device io_ok f s =
  (AddSaved io_ok,
   mkApp (df s ++ [new_device_row (df s) f center code])
     (if io_ok then map drop_temp_cols (df s ++ [new_device_row (df s) f center code])
      else disk s)
     (messages s ++
      (if io_ok then [Success (add_ok_text (new_asset_id (df s) code))]
       else [Error save_error_text; Error add_failed_text]))
     (clock s)).
Proof.
  intros Hc Hv Hk. unfold add_device. rewrite Hc, Hv, Hk.
  destruct io_ok; cbn; [reflexivity|]. rewrite <- app_assoc; reflexivity.
Qed.

(** ** Row operations that keep the derived columns *)

Lemma loc_update_derived (i : nat) (g : Device -> Device) (d : list Device) :
  (forall r, asset_id (g r) = asset_id r /\ center_code (g r) = center_code r /\
             center_name (g r) = center_name r) ->
  derived_columns d -> derived_columns (loc_update i g d).
Proof.
  intros Hg; revert i; induction d as [|r t IH]; intros i Hd; [destruct i; constructor|].
  inversion Hd as [|? ? Hr Ht]; subst.
  destruct i as [|j]; cbn; constructor.
  - destruct (Hg r) as [Ha [Hc Hn]]; rewrite Ha, Hc, Hn; exact Hr.
  - exact Ht.
  - exact Hr.
  - apply IH, Ht.
Qed.

Lemma map_derived (g : Device -> Device) (d : list Device) :
  (forall r, asset_id (g r) = asset_id r /\ center_code (g r) = center_code r /\
             center_name (g r) = center_name r) ->
  derived_columns d -> derived_columns (map g d).
Proof.
  intros Hg Hd; unfold derived_columns; rewrite Forall_map.
  eapply Forall_impl; [|exact Hd]; intros r Hr.
  destruct (Hg r) as [Ha [Hc Hn]]; rewrite Ha, Hc, Hn; exact Hr.
Qed.

Lemma filter_derived (p : Device -> bool) (d : list Device) :
  derived_columns d -> derived_columns (filter p d).
Proof.
  intros Hd; apply Forall_forall; intros r Hr; apply filter_In in Hr as [Hr _].
  exact (proj1 (Forall_forall _ d) Hd r Hr).
Qed.

Ltac keeps_ids := intros []; cbn; auto.

Lemma edit_updates_derived (f : EditForm) (idx : nat) (d : list Device) :
  derived_columns d -> derived_columns (edit_updates f idx d).
Proof.
  intros Hd; unfold edit_updates.
  repeat (apply loc_update_derived; [keeps_ids|]); exact Hd.
Qed.

Lemma log_updates_derived show_date f device idx d :
  derived_columns d -> derived_columns (log_updates show_date f device idx d).
Proof.
  intros Hd; unfold log_updates.
  repeat (apply loc_update_derived; [keeps_ids|]); exact Hd.
Qed.

Lemma apply_interval_derived (selected : string) (n : Z) (d : list Device) :
  derived_columns d -> derived_columns (apply_interval selected n d).
Proof.
  intros Hd; unfold apply_interval.
  apply map_derived.
  - intros r; destruct (equipment_mask selected r); [|auto].
    destruct (last_maintenance r); [|auto]; destruct r; cbn; auto.
  - apply map_derived; [|exact Hd].
    intros r; destruct (equipment_mask selected r); [destruct r; cbn|]; auto.
Qed.

Lemma edit_device_run (io_ok : bool) (aid : string) (f : EditForm) (s : App) (idx : nat) :
  find_index (fun r => String.eqb (asset_id r) aid) (df s) = Some idx ->
  edit_device io_ok aid f s =
  (Some io_ok,
   mkApp (edit_updates f idx (df s))
     (if io_ok then map drop_temp_cols (edit_updates f idx (df s)) else disk s)
     (messages s ++ (if io_ok then [Success edit_ok_text]
                     else [Error save_error_text; Error edit_failed_text]))
     (clock s)).
Proof.
  intros Hf. unfold edit_device; cbn. rewrite Hf.
  destruct io_ok; cbn; [reflexivity|]. rewrite <- app_assoc; reflexivity.
Qed.

Lemma edit_device_none (io_ok : bool) (aid : string) (f : EditForm) (s : App) :
  find_index (fun r => String.eqb (asset_id r) aid) (df s) = None ->
  edit_device io_ok aid f s = (None, s).
Proof. intros Hf. unfold edit_device; cbn. rewrite Hf. destruct s; reflexivity. Qed.

Lemma delete_device_run (io_ok : bool) (aid : string) (s : App) :
  let d' := filter (fun r => negb (String.eqb (asset_id r) aid)) (df s) in
  delete_device io_ok aid s =
  (io_ok,
   mkApp d' (if io_ok then map drop_temp_cols d' else disk s)
     (messages s ++ (if io_ok then [Success delete_ok_text]
                     else [Error save_error_text; Error delete_failed_text]))
     (clock s)).
Proof.
  intros d'. unfold delete_device; cbn.
  destruct io_ok; cbn; [reflexivity|]. rewrite <- app_assoc; reflexivity.
Qed.

Lemma apply_interval_to_type_df (io_ok : bool) (selected : string) (n : Z) (s : App) :
  df (snd (apply_interval_to_type io_ok selected n s)) = apply_interval selected n (df s).
Proof. destruct io_ok; reflexivity. Qed.

Lemma log_maintenance_df show_date io_ok aid f s :
  df (snd (log_maintenance show_date io_ok aid f s)) = df s \/
  exists idx device, nth_error (df s) idx = Some device /\
    df (snd (log_maintenance show_date io_ok aid f s))
    = log_updates show_date f device idx (df s).
Proof.
  destruct (find_index (fun r => String.eqb (asset_id r) aid) (df s)) as [idx|] eqn:Hf.
  - destruct (nth_error (df s) idx) as [device|] eqn:Hn.
    + right; exists idx, device; split; [exact Hn|].
      rewrite (log_maintenance_run _ _ _ _ _ _ _ Hf Hn); reflexivity.
    + left; unfold log_maintenance; cbn; rewrite Hf, Hn; reflexivity.
  - left; unfold log_maintenance; cbn; rewrite Hf; reflexivity.
Qed.

Lemma add_device_df (io_ok : bool) (f : AddForm) (s : App) :
  df (snd (add_device io_ok f s)) = df s \/
  exists center code,
    CENTERS_DICT_REV center = Some code /\
    df (snd (add_device io_ok f s)) = (df s ++ [new_device_row (df s) f center code])%list.
Proof.
  unfold add_device.
  destruct (a_center f) as [center|]; [|left; reflexivity].
  destruct (truthy (a_equipment_name f) && truthy center && truthy_opt (a_department f)) eqn:Hv;
    [|left; reflexivity].
  destruct (CENTERS_DICT_REV center) as [code|] eqn:Hk; [|left; reflexivity].
  right; exists center, code; split; [exact Hk|].
  destruct io_ok; reflexivity.
Qed.

Lemma find_index_first (p : Device -> bool) (l : list Device) (i : nat) :
  find_index p l = Some i ->
  forall j r, (j < i)%nat -> nth_error l j = Some r -> p r = false.
Proof.
  revert i; induction l as [|r0 t IH]; intros i H j r Hj Hr; cbn in H; [discriminate|].
  destruct (p r0) eqn:Hp; [injection H as <-; lia|].
  destruct (find_index p t) as [k|] eqn:Hk; [|discriminate].
  injection H as <-. destruct j as [|j]; cbn in Hr.
  - injection Hr as <-; exact Hp.
  - apply (IH k eq_refl j r); [lia|exact Hr].
Qed.

Lemma find_index_complete (p : Device -> bool) (l : list Device) (r : Device) :
  In r l -> p r = true -> exists i, find_index p l = Some i.
Proof.
  induction l as [|r0 t IH]; intros Hin Hp; [destruct Hin|]; cbn.
  destruct (p r0) eqn:Hp0; [eexists; reflexivity|].
  destruct Hin as [<-|Hin]; [congruence|].
  destruct (IH Hin Hp) as [i Hi]; rewrite Hi; eexists; reflexivity.
Qed.

Lemma edit_updates_length (f : EditForm) (idx : nat) (d : list Device) :
  List.length (edit_updates f idx d) = List.length d.
Proof. unfold edit_updates; rewrite !loc_update_length; reflexivity. Qed.

Lemma edit_updates_nth_ne (f : EditForm) (idx j : nat) (d : list Device) :
  idx <> j -> nth_error (edit_updates f idx d) j = nth_error d j.
Proof. intros H; unfold edit_updates; rewrite !loc_update_nth_ne by exact H; reflexivity. Qed.

Lemma edit_updates_nth_eq (f : EditForm) (idx : nat) (d : list Device) :
  nth_error (edit_updates f idx d) idx
  = option_map (fun r =>
      mkDevice (asset_id r) (scientific_department r) (Some (e_equipment_name f))
        (Some (e_manufacturer f)) (Some (e_model f)) (serial_no r)
        (installation_date r) (center_code r) (center_name r)
        (last_maintenance r) (next_maintenance r) (e_interval f)
        (e_device_status f) (e_priority f) (Some (e_notes f)))
      (nth_error d idx).
Proof.
  unfold edit_updates; rewrite !loc_update_nth_eq.
  destruct (nth_error d idx) as [r|]; [destruct r|]; reflexivity.
Qed.

(** ** Days until a due date *)

Lemma days_until_neg_iff (today n : Z) : days_until today n < 0 <-> n < today.
Proof.
  unfold days_until; pose proof (td_days_bounds (n - today)) as H.
  unfold ns_per_day in *; nia.
Qed.

Lemma days_until_le_iff (today n k : Z) :
  days_until today n <= k <-> n - today < (k + 1) * ns_per_day.
Proof.
  unfold days_until; pose proof (td_days_bounds (n - today)) as H.
  unfold ns_per_day in *; nia.
Qed.

Lemma status_label_cases (today : Z) (r : Device) (n : Z) :
  next_maintenance r = Some n ->
  let dd := days_until today n in
  let lbl := fst (maintenance_status today r) in
  (dd < 0 /\ lbl = lbl_overdue) \/ (0 <= dd <= 7 /\ lbl = lbl_urgent) \/
  (7 < dd <= 30 /\ lbl = lbl_upcoming) \/ (30 < dd /\ lbl = lbl_good).
Proof.
  intros Hn dd lbl; subst lbl; unfold maintenance_status; rewrite Hn; fold dd.
  destruct (Z.ltb_spec dd 0); [left; auto|].
  destruct (Z.leb_spec dd 7); [right; left; split; [lia|reflexivity]|].
  destruct (Z.leb_spec dd 30); [right; right; left; split; [lia|reflexivity]|].
  right; right; right; split; [lia|reflexivity].
Qed.

Lemma status_label_none (today : Z) (r : Device) :
  next_maintenance r = None -> fst (maintenance_status today r) = lbl_undetermined.
Proof. intros Hn; unfold maintenance_status; rewrite Hn; reflexivity. Qed.

Lemma labels_distinct : NoDup status_labels.
Proof. apply nodupb_NoDup; vm_compute; reflexivity. Qed.

Ltac label_neq :=
  let H := fresh in intros H; vm_compute in H; discriminate H.

Lemma filter_length_le_sum (p q1 q2 : Device -> bool) (d : list Device) :
  (forall r, p r = true -> q1 r = true \/ q2 r = true) ->
  (List.length (filter p d) <= List.length (filter q1 d) + List.length (filter q2 d))%nat.
Proof.
  intros H; induction d as [|r t IH]; cbn; [lia|].
  destruct (p r) eqn:Hp.
  - destruct (H r Hp) as [H1|H1]; rewrite H1; cbn;
      [|destruct (q1 r)]; cbn; try lia.
    destruct (q2 r); cbn; lia.
  - destruct (q1 r), (q2 r); cbn; lia.
Qed.

(** * Further properties of the code *)

(** ** Loading *)


(** A successful load keeps the sheet's lines and asset ids in order,
    derives [Center_Code] (the first two ['-'] fields) and [Center_Name]
    for every row, shows nothing, and fills each missing optional column
    with its default ([NaT], 90 days, "عامل", "متوسط", ['']); without a
    [Next_Maintenance] column every device is labelled "غير محدد". A row
    has a center name exactly when its derived code is one of [CENTERS],
    and then the name is that center's. *)
Theorem load_data_derives_columns :
  forall (sh : Sheet) (s : App),
  exists d,
    load_data (Some sh) s = (Some d, s) /\
    map asset_id d = map c_asset_id (sheet_rows sh) /\
    derived_columns d /\
    (forall r name, In r d ->
       center_name r = Some name <-> In (name, derive_center_code (asset_id r)) CENTERS) /\
    (has_last sh = false -> Forall (fun r => last_maintenance r = None) d) /\
    (has_next sh = false ->
       forall today r, In r d -> fst (maintenance_status today r) = lbl_undetermined) /\
    (has_interval sh = false -> Forall (fun r => maintenance_interval_days r = 90) d) /\
    (has_status sh = false -> Forall (fun r => device_status r = "عامل") d) /\
    (has_priority sh = false -> Forall (fun r => priority r = "متوسط") d) /\
    (has_notes sh = false -> Forall (fun r => notes r = Some "") d).
Proof.
  intros sh s; exists (map (load_row sh) (sheet_rows sh)).
  assert (Hd : derived_columns (map (load_row sh) (sheet_rows sh))).
  { unfold derived_columns; rewrite Forall_map; apply Forall_forall.
    intros c _; split; reflexivity. }
  split; [reflexivity|].
  split; [rewrite map_map; reflexivity|].
  split; [exact Hd|].
  split.
  { intros r name Hr.
    destruct (proj1 (Forall_forall _ _) Hd r Hr) as [_ Hn].
    rewrite Hn; apply centers_dict_spec. }
  repeat split; intros H;
    try (rewrite Forall_map; apply Forall_forall; intros c _; unfold load_row;
         rewrite H; reflexivity).
  intros today r Hr; apply status_label_none.
  apply in_map_iff in Hr as [c [<- _]]; unfold load_row; rewrite H; reflexivity.
Qed.

(** ** Adding a device *)





(** A complete submission for a center of [CENTERS] with code [K] appends
    one row at the end of the frame, whether or not the save succeeds:
    its asset id is the allocated [K-NNN], its derived columns are [K] and
    the center's name, it has no last maintenance, its next maintenance is
    the installation date plus the interval, and its interval is the
    form's. A successful save writes the whole frame without the derived
    columns and reports the new id; a failed save shows the save error,
    then "فشل حفظ البيانات". *)
Theorem add_device_appends_row :
  forall (io_ok : bool) (f : AddForm) (center code : string) (s : App),
    a_center f = Some center ->
    truthy (a_equipment_name f) && truthy center && truthy_opt (a_department f) = true ->
    In (center, code) CENTERS ->
    let (res, s') := add_device io_ok f s in
    res = AddSaved io_ok /\
    exists row,
      df s' = (df s ++ [row])%list /\
      asset_id row = new_asset_id (df s) code /\
      center_code row = Some code /\ center_name row = Some center /\
      last_maintenance row = None /\
      next_maintenance row
        = Some (a_installation_date f + timedelta_days (a_interval f)) /\
      maintenance_interval_days row = a_interval f /\
      disk s' = (if io_ok then map drop_temp_cols (df s') else disk s) /\
      messages s' = (messages s ++
        (if io_ok then [Success (add_ok_text (asset_id row))]
         else [Error save_error_text; Error add_failed_text]))%list.
Proof.
  intros io_ok f center code s Hc Hv Hin.
  rewrite (add_device_run io_ok f center code s Hc Hv (proj2 (centers_dict_rev_spec _ _) Hin)).
  split; [reflexivity|].
  exists (new_device_row (df s) f center code).
  repeat split; reflexivity.
Qed.

Lemma add_device_appends_row_witness :
  let (res, s') := add_device false ex_add_form ex_session in
  res = AddSaved false /\
  exists row,
    df s' = (df ex_session ++ [row])%list /\
    asset_id row = new_asset_id (df ex_session) "KHL-PHC" /\
    center_code row = Some "KHL-PHC" /\ center_name row = Some "الخلاوية" /\
    last_maintenance row = None /\
    next_maintenance row
      = Some (a_installation_date ex_add_form + timedelta_days (a_interval ex_add_form)) /\
    maintenance_interval_days row = a_interval ex_add_form /\
    disk s' = disk ex_session /\
    messages s' = (messages ex_session ++ [Error save_error_text; Error add_failed_text])%list.
Proof.
  apply (add_device_appends_row false ex_add_form "الخلاوية" "KHL-PHC" ex_session);
    [reflexivity|vm_compute; reflexivity|apply centers_dict_rev_spec; reflexivity].
Defined.

(** On a frame whose [Center_Code] column is the one derived from each
    asset id (as [load_data] leaves it), the id given to a new device of a
    center of [CENTERS] is not the id of any row already there: it
    derives back to the center's code and its last field reads as one more
    than the largest number scanned. Asset ids that were distinct stay
    distinct. *)
Theorem add_device_fresh_asset_id :
  forall (io_ok : bool) (f : AddForm) (center code : string) (s : App),
    a_center f = Some center ->
    truthy (a_equipment_name f) && truthy center && truthy_opt (a_department f) = true ->
    In (center, code) CENTERS ->
    center_code_consistent (df s) ->
    let s' := snd (add_device io_ok f s) in
    exists row,
      df s' = (df s ++ [row])%list /\
      ~ In (asset_id row) (map asset_id (df s)) /\
      derive_center_code (asset_id row) = code /\
      python_int (last_piece (asset_id row))
        = Some (max_suffix (existing_ids (df s) code) + 1) /\
      (NoDup (map asset_id (df s)) -> NoDup (map asset_id (df s'))).
Proof.
  intros io_ok f center code s Hc Hv Hin Hcons s'.
  assert (Hs' : df s' = (df s ++ [new_device_row (df s) f center code])%list).
  { subst s'; rewrite (add_device_run io_ok f center code s Hc Hv
                         (proj2 (centers_dict_rev_spec _ _) Hin)); reflexivity. }
  exists (new_device_row (df s) f center code).
  destruct (new_asset_id_fields (df s) center code Hin) as [Hcode Hnum].
  pose proof (new_asset_id_not_in (df s) center code Hin Hcons) as Hfresh.
  split; [exact Hs'|]. split; [exact Hfresh|]. split; [exact Hcode|].
  split; [exact Hnum|].
  intros Hnd; rewrite Hs', map_app; cbn [map].
  apply NoDup_app; [exact Hnd|constructor; [intros []|constructor]|].
  intros x Hx [<-|[]]; exact (Hfresh Hx).
Qed.

Lemma add_device_fresh_asset_id_witness :
  exists row,
    df (snd (add_device true ex_add_form ex_session)) = (df ex_session ++ [row])%list /\
    ~ In (asset_id row) (map asset_id (df ex_session)) /\
    derive_center_code (asset_id row) = "KHL-PHC" /\
    python_int (last_piece (asset_id row))
      = Some (max_suffix (existing_ids (df ex_session) "KHL-PHC") + 1) /\
    (NoDup (map asset_id (df ex_session)) ->
     NoDup (map asset_id (df (snd (add_device true ex_add_form ex_session))))).
Proof.
  apply (add_device_fresh_asset_id true ex_add_form "الخلاوية" "KHL-PHC" ex_session);
    [reflexivity|vm_compute; reflexivity|apply centers_dict_rev_spec; reflexivity|].
  repeat constructor.
Defined.

(** ** The derived columns across the session *)

(** Every handler that changes [st.session_state.df] in place keeps the
    [Center_Code] and [Center_Name] columns as [load_data] derives them
    from the asset ids: adding a device (the [CENTERS_DICT_REV] lookup and
    the id allocation agree with [CENTERS_DICT] and with the split of the
    new id), logging a maintenance, editing, deleting and the per-type
    interval update, whatever the outcome of the save. *)
Theorem derived_columns_preserved :
  forall (s : App), derived_columns (df s) ->
  (forall (io_ok : bool) (f : AddForm),
     derived_columns (df (snd (add_device io_ok f s)))) /\
  (forall (show_date : Z -> string) (io_ok : bool) (aid : string) (f : MaintenanceForm),
     derived_columns (df (snd (log_maintenance show_date io_ok aid f s)))) /\
  (forall (io_ok : bool) (aid : string) (f : EditForm),
     derived_columns (df (snd (edit_device io_ok aid f s)))) /\
  (forall (io_ok : bool) (aid : string),
     derived_columns (df (snd (delete_device io_ok aid s)))) /\
  (forall (io_ok : bool) (selected : string) (n : Z),
     derived_columns (df (snd (apply_interval_to_type io_ok selected n s)))).
Proof.
  intros s Hd. split; [|split; [|split; [|split]]].
  - intros io_ok f.
    destruct (add_device_df io_ok f s) as [->|[center [code [Hk ->]]]]; [exact Hd|].
    apply centers_dict_rev_spec in Hk.
    destruct (new_asset_id_fields (df s) center code Hk) as [Hcode _].
    apply Forall_app; split; [exact Hd|]. constructor; [|constructor].
    cbv beta; unfold new_device_row; cbn [asset_id center_code center_name].
    rewrite Hcode; split; [reflexivity|].
    symmetry; apply centers_dict_spec, Hk.
  - intros show_date io_ok aid f.
    destruct (log_maintenance_df show_date io_ok aid f s) as [->|[idx [device [_ ->]]]];
      [exact Hd|apply log_updates_derived, Hd].
  - intros io_ok aid f.
    destruct (find_index (fun r => String.eqb (asset_id r) aid) (df s)) as [idx|] eqn:Hf.
    + rewrite (edit_device_run io_ok aid f s idx Hf); apply edit_updates_derived, Hd.
    + rewrite (edit_device_none io_ok aid f s Hf); exact Hd.
  - intros io_ok aid; rewrite (delete_device_run io_ok aid s); apply filter_derived, Hd.
  - intros io_ok selected n; rewrite apply_interval_to_type_df; apply apply_interval_derived, Hd.
Qed.

Lemma derived_columns_preserved_witness :
  derived_columns (df ex_session) /\
  derived_columns (df (snd (add_device true ex_add_form ex_session))) /\
  derived_columns (df (snd (delete_device true "KHL-PHC-001" ex_session))).
Proof.
  assert (H : derived_columns (df ex_session)) by (repeat constructor).
  destruct (derived_columns_preserved ex_session H) as [Ha [_ [_ [Hdel _]]]].
  split; [exact H|]. split; [apply Ha|apply Hdel].
Defined.

(** ** Editing a device *)

(** Saving the edit form for an asset id present in the frame rewrites the
    first row with that id: name, maker, model, status, priority, interval
    and notes take the form's values, and every other column keeps its
    value, in particular [Last_Maintenance] and [Next_Maintenance], which
    are not recomputed for the new interval. Earlier rows have other ids;
    every other row, and the frame's length, are unchanged. A failed save
    keeps the edit in the session and shows two errors. *)
Theorem edit_device_effect :
  forall (io_ok : bool) (aid : string) (f : EditForm) (s : App),
    In aid (map asset_id (df s)) ->
    exists idx r,
      nth_error (df s) idx = Some r /\ asset_id r = aid /\
      (forall j r', (j < idx)%nat -> nth_error (df s) j = Some r' -> asset_id r' <> aid) /\
      let (res, s') := edit_device io_ok aid f s in
      res = Some io_ok /\
      List.length (df s') = List.length (df s) /\
      nth_error (df s') idx =
        Some (mkDevice (asset_id r) (scientific_department r) (Some (e_equipment_name f))
                (Some (e_manufacturer f)) (Some (e_model f)) (serial_no r)
                (installation_date r) (center_code r) (center_name r)
                (last_maintenance r) (next_maintenance r) (e_interval f)
                (e_device_status f) (e_priority f) (Some (e_notes f))) /\
      (forall j, j <> idx -> nth_error (df s') j = nth_error (df s) j) /\
      disk s' = (if io_ok then map drop_temp_cols (df s') else disk s) /\
      messages s' = (messages s ++
        (if io_ok then [Success edit_ok_text]
         else [Error save_error_text; Error edit_failed_text]))%list.
Proof.
  intros io_ok aid f s Hin.
  apply in_map_iff in Hin as [r0 [Hr0 Hin]].
  destruct (find_index_complete (fun r => String.eqb (asset_id r) aid) (df s) r0 Hin
              (proj2 (String.eqb_eq _ _) Hr0)) as [idx Hf].
  destruct (find_index_spec _ _ _ Hf) as [r [Hr Hp]].
  exists idx, r. split; [exact Hr|]. split; [apply String.eqb_eq, Hp|].
  split.
  { intros j r' Hj Hr' Heq.
    pose proof (find_index_first _ _ _ Hf j r' Hj Hr') as Hne; cbn in Hne.
    rewrite Heq, String.eqb_refl in Hne; discriminate. }
  rewrite (edit_device_run io_ok aid f s idx Hf). cbn [df disk messages].
  split; [reflexivity|].
  split; [apply edit_updates_length|].
  split; [rewrite edit_updates_nth_eq, Hr; reflexivity|].
  split; [intros j Hj; apply edit_updates_nth_ne; congruence|].
  split; reflexivity.
Qed.

Lemma edit_device_effect_witness :
  exists idx r,
    nth_error (df ex_session) idx = Some r /\ asset_id r = "KHL-PHC-001" /\
    (forall j r', (j < idx)%nat -> nth_error (df ex_session) j = Some r' ->
                  asset_id r' <> "KHL-PHC-001") /\
    let (res, s') := edit_device true "KHL-PHC-001" ex_edit_form ex_session in
    res = Some true /\
    List.length (df s') = List.length (df ex_session) /\
    nth_error (df s') idx =
      Some (mkDevice (asset_id r) (scientific_department r)
              (Some (e_equipment_name ex_edit_form))
              (Some (e_manufacturer ex_edit_form)) (Some (e_model ex_edit_form))
              (serial_no r) (installation_date r) (center_code r) (center_name r)
              (last_maintenance r) (next_maintenance r) (e_interval ex_edit_form)
              (e_device_status ex_edit_form) (e_priority ex_edit_form)
              (Some (e_notes ex_edit_form))) /\
    (forall j, j <> idx -> nth_error (df s') j = nth_error (df ex_session) j) /\
    disk s' = map drop_temp_cols (df s') /\
    messages s' = (messages ex_session ++ [Success edit_ok_text])%list.
Proof.
  apply (edit_device_effect true "KHL-PHC-001" ex_edit_form ex_session).
  left; reflexivity.
Defined.

(** ** Deleting a device *)


(** Asset ids are reused: deleting the highest-numbered device of a center
    makes the next device added there get the deleted id. With rows
    [KHL-PHC-001] and [KHL-PHC-002], deleting [KHL-PHC-002] and then
    adding a device to "الخلاوية" gives it [KHL-PHC-002] again. *)
Theorem delete_then_add_reuses_id :
  let s1 := snd (delete_device true "KHL-PHC-002" ex_session) in
  let s2 := snd (add_device true ex_add_form s1) in
  In "KHL-PHC-002" (map asset_id (df ex_session)) /\
  ~ In "KHL-PHC-002" (map asset_id (df s1)) /\
  map asset_id (df s2) = ["KHL-PHC-001"; "KHL-PHC-002"].
Proof.
  vm_compute. split; [right; left; reflexivity|].
  split; [intros [H|[]]; discriminate H|reflexivity].
Qed.

(** ** Counters and labels *)

(** The overdue counter ([Next_Maintenance < now], not [NaT]; dashboard,
    statistics tab, reports) selects exactly the rows that
    [calculate_maintenance_status] labels "متأخر", at the same instant. *)
Theorem overdue_metric_is_overdue_label :
  forall (today : Z) (d : list Device),
    filter (overdue_row today) d
    = filter (fun r => String.eqb (fst (maintenance_status today r)) lbl_overdue) d.
Proof.
  intros today d; apply filter_ext; intros r.
  unfold overdue_row.
  destruct (next_maintenance r) as [n|] eqn:Hn.
  - destruct (status_label_cases today r n Hn) as [[Hd ->]|[[Hd ->]|[[Hd ->]|[Hd ->]]]];
      pose proof (days_until_neg_iff today n) as Hneg;
      destruct (Z.ltb_spec n today); try reflexivity; lia.
  - rewrite (status_label_none today r Hn); reflexivity.
Qed.

(** The urgent counter of the dashboard ([days <= 7], [Next_Maintenance >=
    now], not [NaT]) selects exactly the rows labelled "عاجل". *)
Theorem urgent_metric_is_urgent_label :
  forall (today : Z) (d : list Device),
    filter (urgent_metric_row today) d
    = filter (fun r => String.eqb (fst (maintenance_status today r)) lbl_urgent) d.
Proof.
  intros today d; apply filter_ext; intros r.
  unfold urgent_metric_row.
  destruct (next_maintenance r) as [n|] eqn:Hn.
  - pose proof (days_until_neg_iff today n) as Hneg.
    destruct (status_label_cases today r n Hn) as [[Hd ->]|[[Hd ->]|[[Hd ->]|[Hd ->]]]];
      destruct (Z.leb_spec (days_until today n) 7), (Z.leb_spec today n);
      try reflexivity; lia.
  - rewrite (status_label_none today r Hn); reflexivity.
Qed.

Lemma schedule_time_row_labels (today : Z) (r : Device) :
  let lbl := fst (maintenance_status today r) in
  (schedule_time_row today Overdue r = true <-> lbl = lbl_overdue) /\
  (schedule_time_row today AllTimes r = true <-> lbl <> lbl_undetermined) /\
  (schedule_time_row today WithinWeek r = true -> lbl = lbl_urgent) /\
  (schedule_time_row today WithinMonth r = true ->
     lbl = lbl_urgent \/ lbl = lbl_upcoming) /\
  (schedule_time_row today Within3Months r = true ->
     lbl <> lbl_undetermined /\ lbl <> lbl_overdue).
Proof.
  intros lbl; subst lbl.
  unfold schedule_time_row, within_days, timedelta_days.
  destruct (next_maintenance r) as [n|] eqn:Hn.
  - destruct (status_label_cases today r n Hn) as [[Hd ->]|[[Hd ->]|[[Hd ->]|[Hd ->]]]];
      unfold days_until in Hd; pose proof (td_days_bounds (n - today)) as Hb;
      unfold ns_per_day in *;
      repeat split; intros;
      repeat match goal with
             | H : (_ && _)%bool = true |- _ => apply andb_true_iff in H as [? ?]
             | H : (_ <=? _) = true |- _ => apply Z.leb_le in H
             | H : (_ <? _) = true |- _ => apply Z.ltb_lt in H
             end;
      try reflexivity; try (left; reflexivity); try (right; reflexivity);
      try label_neq; try (apply Z.ltb_lt; lia); try lia;
      match goal with H : _ = _ |- _ => vm_compute in H; discriminate H end.
  - rewrite (status_label_none today r Hn).
    repeat split; intros; try discriminate; try (exfalso; auto).
Qed.


(** The time filter of the schedule tab against the labels: "متأخر"
    keeps exactly the overdue rows, "الكل" exactly the rows with a due
    date; the windows of 7, 30 and 90 days keep only rows labelled
    urgent, urgent or upcoming, and not overdue, respectively. The week
    window can miss an urgent row: a device due 7 days and one hour from
    now is "عاجل" but not within the week. *)
Theorem schedule_time_filter_labels :
  (forall (today : Z) (r : Device),
     let lbl := fst (maintenance_status today r) in
     (schedule_time_row today Overdue r = true <-> lbl = lbl_overdue) /\
     (schedule_time_row today AllTimes r = true <-> lbl <> lbl_undetermined) /\
     (schedule_time_row today WithinWeek r = true -> lbl = lbl_urgent) /\
     (schedule_time_row today WithinMonth r = true ->
        lbl = lbl_urgent \/ lbl = lbl_upcoming) /\
     (schedule_time_row today Within3Months r = true ->
        lbl <> lbl_undetermined /\ lbl <> lbl_overdue)) /\
  (let r := ex_due_row (timedelta_days 7 + 3600 * 1000000000) in
   fst (maintenance_status 0 r) = lbl_urgent /\
   schedule_time_row 0 WithinWeek r = false).
Proof.
  split; [exact schedule_time_row_labels|split; vm_compute; reflexivity].
Qed.

(** The statistics tab's "upcoming (30 days)" counter never exceeds the
    number of rows labelled "عاجل" or "قريب", and can be smaller: a device
    due 30 days and one hour from now is "قريب" but not counted. *)
Theorem upcoming30_within_labels :
  (forall (today : Z) (d : list Device),
     (upcoming30_count today d
      <= label_count today lbl_urgent d + label_count today lbl_upcoming d)%nat) /\
  (let d := [ex_due_row (timedelta_days 30 + 3600 * 1000000000)] in
   upcoming30_count 0 d = 0%nat /\ label_count 0 lbl_upcoming d = 1%nat).
Proof.
  split; [|split; vm_compute; reflexivity].
  intros today d; unfold upcoming30_count, label_count.
  apply filter_length_le_sum; intros r Hr.
  destruct (proj1 (proj2 (proj2 (proj2 (schedule_time_row_labels today r)))) Hr)
    as [H|H];
    [left|right]; rewrite H; apply String.eqb_refl.
Qed.

(** ** The per-type interval update *)

Lemma apply_interval_row (selected : string) (n : Z) (d : list Device) :
  apply_interval selected n d
  = map (fun r => if equipment_mask selected r
                  then match last_maintenance r with
                       | Some last =>
                           set_next_maintenance (Some (last + timedelta_days n))
                             (set_maintenance_interval_days n r)
                       | None => set_maintenance_interval_days n r
                       end
                  else r) d.
Proof.
  unfold apply_interval; rewrite map_map; apply map_ext; intros r.
  destruct (equipment_mask selected r) eqn:Hm; [|rewrite Hm; reflexivity].
  assert (Hm' : equipment_mask selected (set_maintenance_interval_days n r) = true)
    by (destruct r; exact Hm).
  rewrite Hm'; destruct r; reflexivity.
Qed.

Lemma equipment_mask_set_interval (selected : string) (k : Z) (r : Device) :
  equipment_mask selected (set_maintenance_interval_days k r) = equipment_mask selected r.
Proof. destruct r; reflexivity. Qed.

Lemma equipment_mask_set_next (selected : string) (v : option Z) (r : Device) :
  equipment_mask selected (set_next_maintenance v r) = equipment_mask selected r.
Proof. destruct r; reflexivity. Qed.

Lemma equipment_mask_unique (a b : string) (r : Device) :
  equipment_mask a r = true -> equipment_mask b r = true -> a = b.
Proof.
  unfold equipment_mask; destruct (scientific_equipment_name r) as [x|]; [|discriminate].
  intros Ha Hb; apply String.eqb_eq in Ha, Hb; congruence.
Qed.

Lemma interval_row_skip (selected : string) (n : Z) (r : Device) :
  equipment_mask selected r = false -> interval_row selected n r = r.
Proof. intros H; unfold interval_row; rewrite H; reflexivity. Qed.

Lemma interval_row_mask (a selected : string) (n : Z) (r : Device) :
  equipment_mask a (interval_row selected n r) = equipment_mask a r.
Proof.
  unfold interval_row; destruct (equipment_mask selected r); [|reflexivity].
  destruct (last_maintenance r);
    rewrite ?equipment_mask_set_next, equipment_mask_set_interval; reflexivity.
Qed.

Lemma interval_row_last (selected : string) (n : Z) (r : Device) :
  last_maintenance (interval_row selected n r) = last_maintenance r.
Proof.
  unfold interval_row; destruct (equipment_mask selected r); [|reflexivity].
  destruct (last_maintenance r) eqn:Hl; rewrite <- Hl; destruct r; reflexivity.
Qed.

(** Applying the per-type update twice to one equipment type leaves the
    frame as the second update alone would: the last interval wins, and
    the next maintenance follows it. Updates of two different types
    commute. *)
Theorem apply_interval_last_wins :
  (forall (io1 io2 : bool) (selected : string) (n m : Z) (s : App),
     df (snd (apply_interval_to_type io2 selected m
                (snd (apply_interval_to_type io1 selected n s))))
     = df (snd (apply_interval_to_type io2 selected m s))) /\
  (forall (a b : string) (n m : Z) (d : list Device),
     a <> b ->
     apply_interval a n (apply_interval b m d) = apply_interval b m (apply_interval a n d)).
Proof.
  split.
  - intros io1 io2 selected n m s.
    rewrite !apply_interval_to_type_df, !apply_interval_row, map_map.
    apply map_ext; intros r.
    change (interval_row selected m (interval_row selected n r) = interval_row selected m r).
    unfold interval_row at 1; rewrite interval_row_mask, interval_row_last.
    unfold interval_row.
    destruct (equipment_mask selected r); [|reflexivity].
    destruct (last_maintenance r); destruct r; reflexivity.
  - intros a b n m d Hab.
    rewrite !apply_interval_row, !map_map; apply map_ext; intros r.
    change (interval_row a n (interval_row b m r) = interval_row b m (interval_row a n r)).
    destruct (equipment_mask a r) eqn:Ha.
    + destruct (equipment_mask b r) eqn:Hb;
        [exfalso; exact (Hab (equipment_mask_unique a b r Ha Hb))|].
      rewrite (interval_row_skip b m r Hb),
        (interval_row_skip b m (interval_row a n r)) by (rewrite interval_row_mask; exact Hb).
      reflexivity.
    + rewrite (interval_row_skip a n r Ha),
        (interval_row_skip a n (interval_row b m r)) by (rewrite interval_row_mask; exact Ha).
      reflexivity.
Qed.

(** ** Saving *)


(** ** Logging maintenance *)


Lemma find_index_loc_update (p : Device -> bool) (i : nat) (g : Device -> Device)
    (d : list Device) :
  (forall r, p (g r) = p r) -> find_index p (loc_update i g d) = find_index p d.
Proof.
  intros Hg; revert i; induction d as [|r t IH]; intros [|j]; cbn; try reflexivity.
  - rewrite Hg; reflexivity.
  - rewrite IH; reflexivity.
Qed.

Lemma log_updates_find_index show_date f device idx d aid :
  find_index (fun r => String.eqb (asset_id r) aid) (log_updates show_date f device idx d)
  = find_index (fun r => String.eqb (asset_id r) aid) d.
Proof.
  unfold log_updates; rewrite !find_index_loc_update by (intros []; reflexivity).
  reflexivity.
Qed.

(** Two maintenance logs on the same device, one after the other, keep
    both notes, in order, after the notes the device had; the second
    log's date and interval give the last and next maintenance; every
    other row is as before. The outcome of each save does not matter. *)
Theorem log_maintenance_twice_keeps_both_notes :
  forall (show_date : Z -> string) (io1 io2 : bool) (aid : string)
         (f1 f2 : MaintenanceForm) (s : App),
    In aid (map asset_id (df s)) ->
    exists idx device,
      nth_error (df s) idx = Some device /\ asset_id device = aid /\
      let s2 := snd (log_maintenance show_date io2 aid f2
                       (snd (log_maintenance show_date io1 aid f1 s))) in
      exists r,
        nth_error (df s2) idx = Some r /\
        notes r = Some (((match notes device with Some n => n | None => "" end)
                          ++ new_note show_date f1) ++ new_note show_date f2) /\
        last_maintenance r = Some (maintenance_date f2) /\
        next_maintenance r
          = Some (maintenance_date f2 + timedelta_days (next_maintenance_interval f2)) /\
        maintenance_interval_days r = next_maintenance_interval f2 /\
        (forall j, j <> idx -> nth_error (df s2) j = nth_error (df s) j).
Proof.
  intros show_date io1 io2 aid f1 f2 s Hin.
  apply in_map_iff in Hin as [r0 [Hr0 Hin]].
  destruct (find_index_complete (fun r => String.eqb (asset_id r) aid) (df s) r0 Hin
              (proj2 (String.eqb_eq _ _) Hr0)) as [idx Hf].
  destruct (find_index_spec _ _ _ Hf) as [device [Hd Hp]].
  exists idx, device. split; [exact Hd|]. split; [apply String.eqb_eq, Hp|].
  set (s1 := snd (log_maintenance show_date io1 aid f1 s)).
  assert (Hs1 : df s1 = log_updates show_date f1 device idx (df s))
    by (subst s1; rewrite (log_maintenance_run _ _ _ _ _ _ _ Hf Hd); reflexivity).
  assert (Hf1 : find_index (fun r => String.eqb (asset_id r) aid) (df s1) = Some idx)
    by (rewrite Hs1, log_updates_find_index; exact Hf).
  assert (Hd1 : nth_error (df s1) idx = Some (logged_row show_date f1 device device))
    by (rewrite Hs1, log_updates_nth_eq, Hd; reflexivity).
  rewrite (log_maintenance_run _ _ _ _ _ _ _ Hf1 Hd1); cbn [snd df].
  exists (logged_row show_date f2 (logged_row show_date f1 device device)
            (logged_row show_date f1 device device)).
  split; [rewrite log_updates_nth_eq, Hd1; reflexivity|].
  split; [reflexivity|]. split; [reflexivity|]. split; [reflexivity|].
  split; [reflexivity|].
  intros j Hj; rewrite log_updates_nth_ne by exact Hj.
  rewrite Hs1, log_updates_nth_ne by exact Hj; reflexivity.
Qed.

Lemma log_maintenance_twice_keeps_both_notes_witness :
  exists idx device,
    nth_error (df ex_session) idx = Some device /\ asset_id device = "KHL-PHC-001" /\
    let s2 := snd (log_maintenance ex_show_date true "KHL-PHC-001" (ex_form 60)
                     (snd (log_maintenance ex_show_date false "KHL-PHC-001" (ex_form 30)
                             ex_session))) in
    exists r,
      nth_error (df s2) idx = Some r /\
      notes r = Some (((match notes device with Some n => n | None => "" end)
                        ++ new_note ex_show_date (ex_form 30))
                       ++ new_note ex_show_date (ex_form 60)) /\
      last_maintenance r = Some (maintenance_date (ex_form 60)) /\
      next_maintenance r
        = Some (maintenance_date (ex_form 60)
                + timedelta_days (next_maintenance_interval (ex_form 60))) /\
      maintenance_interval_days r = next_maintenance_interval (ex_form 60) /\
      (forall j, j <> idx -> nth_error (df s2) j = nth_error (df ex_session) j).
Proof.
  apply (log_maintenance_twice_keeps_both_notes ex_show_date false true "KHL-PHC-001"
           (ex_form 30) (ex_form 60) ex_session).
  left; reflexivity.
Defined.
